(** * SOCKS5 proxy worker: a shallow embedding of the two handlers

    The repository holds two near-identical Cloudflare workers:
    - [src/src/index.js]      (module [Index]):   [socks5.connect] and a
      [fetch] handler that tunnels CONNECT requests and forwards every other
      method over the SOCKS5 socket;
    - [src/unnamed/part_000]  (module [Part000]): [socks5Connect] and a
      CONNECT-only [fetch] handler.

    JavaScript values are embedded as follows.
    - A string is the list of its UTF-16 code units ([jsstring]).
    - A [Uint8Array] is the list of its elements, each in 0..255; building one
      from numbers reduces every element modulo 256.
    - Asynchronous code is sequential between awaits, so it is written in a
      small state-and-exception monad [M]: the state is the [Runtime] (the
      trace of effects performed so far and the unread replies of the open
      socket), a computation either completes normally or throws.
    - The platform supplies what the script does not define: the socket API
      [connect], [Math.random], [atob], [JSON.parse], [URL], [TextEncoder].
      [TextEncoder], [atob], [parseInt], [split], [startsWith] are written
      out; [JSON.parse] and [URL] are taken by their results: a secret is
      text that does not parse, [null], or an array of records with string
      fields, and a URL is its hostname and its port string.
    - A server is the list of what successive reads of its socket settle
      to; writes always go through, a read may reject.  Every read settles:
      a read left pending by a silent server is not represented, and
      nothing here says that a run of the real handlers ends.
    - Of a request, the handlers use the Proxy-Authorization header, the
      method, the URL and the body, which is a stream or null.  The two pipes
      of a tunnel run in the platform once started; starting the one from
      [request.body] throws when the body is null. *)

From Stdlib Require Import ZArith List String Ascii Bool Lia DecimalString.
Import ListNotations.
Open Scope Z_scope.

(* ===================================================================== *)
(** ** JavaScript strings and the built-ins the workers call *)
(* ===================================================================== *)

Module JS.

(** A string value: its UTF-16 code units, each in 0..65535. *)
Definition jsstring := list Z.

Definition wf_jsstring (s : jsstring) : Prop :=
  Forall (fun u => 0 <= u < 65536) s.

(** An ASCII literal of the source text. *)
Definition lit (s : string) : jsstring :=
  map (fun a => Z.of_N (N_of_ascii a)) (list_ascii_of_string s).

(** [a === b] on two strings. *)
Fixpoint str_eqb (a b : jsstring) : bool :=
  match a, b with
  | [], [] => true
  | x :: a', y :: b' => (x =? y) && str_eqb a' b'
  | _, _ => false
  end.

(** [a === b] where [b] may be [undefined] and [a] is a string. *)
Definition str_eqb_undef (a : jsstring) (b : option jsstring) : bool :=
  match b with
  | Some b' => str_eqb a b'
  | None => false
  end.

(** [s.startsWith(p)] *)
Fixpoint startsWith (s p : jsstring) {struct p} : bool :=
  match p, s with
  | [], _ => true
  | y :: p', x :: s' => (x =? y) && startsWith s' p'
  | _ :: _, [] => false
  end.

(** [s.substring(n)] for a non-negative literal [n]. *)
Definition substring (s : jsstring) (n : nat) : jsstring := skipn n s.

(** [s.split(sep)] for a one-character separator: cuts at every occurrence,
    and always yields at least one segment. *)
Fixpoint split (sep : Z) (s : jsstring) : list jsstring :=
  match s with
  | [] => [[]]
  | c :: t =>
      if c =? sep then [] :: split sep t
      else match split sep t with
           | seg :: segs => (c :: seg) :: segs
           | [] => [[c]]
           end
  end.

Definition colon : Z := 58.

(** Decimal rendering of an integer inside a template literal. *)
Definition Number_toString (n : Z) : jsstring :=
  lit (NilZero.string_of_int (Z.to_int n)).

(** *** [TextEncoder.prototype.encode]: UTF-8 of the code-unit sequence.
    A surrogate pair is one code point of four bytes; a lone surrogate is
    replaced by U+FFFD (EF BF BD). *)
Definition is_high_surrogate (c : Z) : bool := (0xD800 <=? c) && (c <=? 0xDBFF).
Definition is_low_surrogate (c : Z) : bool := (0xDC00 <=? c) && (c <=? 0xDFFF).

Definition utf8_2 (c : Z) : list Z :=
  [Z.lor 0xC0 (Z.shiftr c 6); Z.lor 0x80 (Z.land c 0x3F)].
Definition utf8_3 (c : Z) : list Z :=
  [Z.lor 0xE0 (Z.shiftr c 12);
   Z.lor 0x80 (Z.land (Z.shiftr c 6) 0x3F);
   Z.lor 0x80 (Z.land c 0x3F)].
Definition utf8_4 (c : Z) : list Z :=
  [Z.lor 0xF0 (Z.shiftr c 18);
   Z.lor 0x80 (Z.land (Z.shiftr c 12) 0x3F);
   Z.lor 0x80 (Z.land (Z.shiftr c 6) 0x3F);
   Z.lor 0x80 (Z.land c 0x3F)].
Definition replacement : list Z := [0xEF; 0xBF; 0xBD].

Fixpoint encode (s : jsstring) : list Z :=
  match s with
  | [] => []
  | c :: t =>
      if c <? 0x80 then c :: encode t
      else if c <? 0x800 then utf8_2 c ++ encode t
      else if is_high_surrogate c then
        match t with
        | d :: t' =>
            if is_low_surrogate d
            then utf8_4 (0x10000 + Z.shiftl (c - 0xD800) 10 + (d - 0xDC00))
                 ++ encode t'
            else replacement ++ encode t
        | [] => replacement
        end
      else if is_low_surrogate c then replacement ++ encode t
      else utf8_3 c ++ encode t
  end.

(** [new Uint8Array([v0, v1, ...])]: every element is stored modulo 256. *)
Definition Uint8Array (vs : list Z) : list Z := map (fun v => v mod 256) vs.

(** [bytes.length] as a number. *)
Definition len (bytes : list Z) : Z := Z.of_nat (List.length bytes).

(** *** [atob]: forgiving-base64 decode.  [None] stands for the
    InvalidCharacterError it throws.  The result is a binary string: one
    code unit in 0..255 per decoded byte. *)
Definition is_ascii_whitespace (c : Z) : bool :=
  (c =? 9) || (c =? 10) || (c =? 12) || (c =? 13) || (c =? 32).

Definition b64_value (c : Z) : option Z :=
  if (65 <=? c) && (c <=? 90) then Some (c - 65)
  else if (97 <=? c) && (c <=? 122) then Some (c - 71)
  else if (48 <=? c) && (c <=? 57) then Some (c + 4)
  else if c =? 43 then Some 62
  else if c =? 47 then Some 63
  else None.

Fixpoint b64_values (s : jsstring) : option (list Z) :=
  match s with
  | [] => Some []
  | c :: t =>
      match b64_value c, b64_values t with
      | Some v, Some vs => Some (v :: vs)
      | _, _ => None
      end
  end.

Fixpoint b64_bytes (vs : list Z) : list Z :=
  match vs with
  | a :: b :: c :: d :: rest =>
      let n := Z.lor (Z.lor (Z.shiftl a 18) (Z.shiftl b 12))
                     (Z.lor (Z.shiftl c 6) d) in
      Z.land (Z.shiftr n 16) 255 :: Z.land (Z.shiftr n 8) 255
        :: Z.land n 255 :: b64_bytes rest
  | [a; b; c] =>
      let n := Z.shiftr (Z.lor (Z.lor (Z.shiftl a 12) (Z.shiftl b 6)) c) 2 in
      [Z.land (Z.shiftr n 8) 255; Z.land n 255]
  | [a; b] =>
      let n := Z.shiftr (Z.lor (Z.shiftl a 6) b) 4 in
      [Z.land n 255]
  | _ => []
  end.

Definition strip_padding (s : jsstring) : jsstring :=
  if (Nat.modulo (List.length s) 4 =? 0)%nat then
    match rev s with
    | 61 :: 61 :: r => rev r
    | 61 :: r => rev r
    | _ => s
    end
  else s.

Definition atob (data : jsstring) : option jsstring :=
  let d := filter (fun c => negb (is_ascii_whitespace c)) data in
  let d := strip_padding d in
  if (Nat.modulo (List.length d) 4 =? 1)%nat then None
  else option_map b64_bytes (b64_values d).

(** *** [parseInt(s)] with no radix argument.  [None] stands for NaN.
    (Exact up to 2^53, far above any port number.) *)
Definition is_js_whitespace (c : Z) : bool :=
  ((9 <=? c) && (c <=? 13)) || (c =? 32) || (c =? 160) || (c =? 5760)
  || ((8192 <=? c) && (c <=? 8202)) || (c =? 8232) || (c =? 8233)
  || (c =? 8239) || (c =? 8287) || (c =? 12288) || (c =? 65279).

Fixpoint skip_whitespace (s : jsstring) : jsstring :=
  match s with
  | c :: t => if is_js_whitespace c then skip_whitespace t else s
  | [] => []
  end.

Definition digit_value (radix c : Z) : option Z :=
  let v := if (48 <=? c) && (c <=? 57) then c - 48
           else if (97 <=? c) && (c <=? 122) then c - 87
           else if (65 <=? c) && (c <=? 90) then c - 55
           else radix in
  if v <? radix then Some v else None.

Fixpoint leading_digits (radix : Z) (s : jsstring) : list Z :=
  match s with
  | c :: t =>
      match digit_value radix c with
      | Some v => v :: leading_digits radix t
      | None => []
      end
  | [] => []
  end.

Definition parseInt (s : jsstring) : option Z :=
  let s := skip_whitespace s in
  let '(sign, s) :=
    match s with
    | 45 :: t => (-1, t)
    | 43 :: t => (1, t)
    | _ => (1, s)
    end in
  let '(radix, s) :=
    match s with
    | 48 :: 120 :: t => (16, t)
    | 48 :: 88 :: t => (16, t)
    | _ => (10, s)
    end in
  match leading_digits radix s with
  | [] => None
  | ds => Some (sign * fold_left (fun acc v => acc * radix + v) ds 0)
  end.

(** [parseInt(s) || dflt]: NaN and 0 are falsy. *)
Definition parseInt_or (s : jsstring) (dflt : Z) : Z :=
  match parseInt s with
  | Some n => if n =? 0 then dflt else n
  | None => dflt
  end.

End JS.
Import JS.

(* ===================================================================== *)
(** ** The runtime: sockets, randomness, and the trace of effects *)
(* ===================================================================== *)

(** One configured upstream proxy ([PROXIES_JSON] entry). *)
Record ProxyEndpoint := mkProxy {
  proxy_host : jsstring;
  proxy_port : Z;
  proxy_user : jsstring;
  proxy_pass : jsstring
}.

(** One accepted credential pair ([USERS_JSON] entry). *)
Record UserEntry := mkUser {
  entry_user : jsstring;
  entry_pass : jsstring
}.

(** What [reader.read()] settles to. *)
Inductive read_result :=
| Chunk (value : list Z)         (* resolves, value is a Uint8Array *)
| Done                           (* resolves, value is undefined *)
| Rejected (reason : jsstring).  (* rejects: the transport failed *)

(** Effects, in the order they happen.  [EvCall] records that the SOCKS5
    connect operation was entered, with its three arguments. *)
Inductive event :=
| EvRandom
| EvCall (proxy : option ProxyEndpoint) (targetHost : jsstring) (targetPort : Z)
| EvOpen (hostname : jsstring) (port : Z)
| EvWrite (chunk : list Z)
| EvRead (r : read_result)
| EvClose.

Record Runtime := mkRuntime {
  trace : list event;
  inbox : list read_result
}.

Definition boot : Runtime := {| trace := []; inbox := [] |}.

(** The environment outside the script: what the server behind each
    endpoint replies to successive reads, and the random draw, given as the
    function [n => Math.floor(r * n)] of the drawn number [r]. *)
Record Platform := mkPlatform {
  peer : jsstring -> Z -> list read_result;
  random_index : nat -> nat
}.

(** The handle returned by [connect]. *)
Record Socket := mkSocket {
  remote_hostname : jsstring;
  remote_port : Z
}.

Inductive completion (A : Type) :=
| Normal (a : A)
| Throw (message : jsstring).
Arguments Normal {A} a.
Arguments Throw {A} message.

Definition M (A : Type) : Type := Runtime -> completion A * Runtime.

Definition ret {A} (a : A) : M A := fun rt => (Normal a, rt).

Definition bind {A B} (c : M A) (k : A -> M B) : M B :=
  fun rt =>
    match c rt with
    | (Normal a, rt') => k a rt'
    | (Throw m, rt') => (Throw m, rt')
    end.

Definition throw {A} (message : jsstring) : M A := fun rt => (Throw message, rt).

Definition emit (e : event) : M unit :=
  fun rt => (Normal tt, {| trace := trace rt ++ [e]; inbox := inbox rt |}).

(** [try { body } catch (err) { return handler(err) }  rest] *)
Definition try_or_return {A B} (body : M A) (handler : jsstring -> B)
    (rest : A -> M B) : M B :=
  fun rt =>
    match body rt with
    | (Normal a, rt') => rest a rt'
    | (Throw m, rt') => (Normal (handler m), rt')
    end.

Declare Scope js_scope.
Delimit Scope js_scope with js.
Notation "x <- c ;; k" := (bind c (fun x => k))
  (at level 61, c at next level, right associativity) : js_scope.
Notation "c ;; k" := (bind c (fun _ => k))
  (at level 61, right associativity) : js_scope.
Open Scope js_scope.

(** [connect({ hostname, port })] *)
Definition connect (pf : Platform) (hostname : jsstring) (port : Z) : M Socket :=
  fun rt =>
    (Normal {| remote_hostname := hostname; remote_port := port |},
     {| trace := trace rt ++ [EvOpen hostname port];
        inbox := peer pf hostname port |}).

(** [await writer.write(chunk)] *)
Definition writer_write (chunk : list Z) : M unit := emit (EvWrite chunk).

(** [(await reader.read()).value]: the next reply, whole, whatever its
    length; [None] is [undefined].  A peer with nothing left to say has
    closed its side.  Every read settles here: a read that stays pending on
    a silent peer, on which the real code waits without a timeout, is not
    represented, so nothing below says that a run ends. *)
Definition reader_read : M (option (list Z)) :=
  fun rt =>
    match inbox rt with
    | [] => (Normal None, {| trace := trace rt ++ [EvRead Done]; inbox := [] |})
    | r :: rest =>
        let rt' := {| trace := trace rt ++ [EvRead r]; inbox := rest |} in
        match r with
        | Chunk value => (Normal (Some value), rt')
        | Done => (Normal None, rt')
        | Rejected reason => (Throw reason, rt')
        end
    end.

(** [socket.close()] *)
Definition socket_close : M unit := emit EvClose.

(** [socket.writable.getWriter()], [socket.readable.getReader()],
    [writer.releaseLock()], [reader.releaseLock()]: stream locks, with no
    effect on what is sent or received. *)
Definition getWriter : M unit := ret tt.
Definition getReader : M unit := ret tt.
Definition releaseLock : M unit := ret tt.

(** [response[i] !== b] on a Uint8Array: out of range is [undefined]. *)
Definition differs (response : list Z) (i : nat) (b : Z) : bool :=
  match nth_error response i with
  | Some v => negb (v =? b)
  | None => true
  end.

(** [!response || response[0] !== b0 || response[1] !== b1] *)
Definition refused (response : option (list Z)) (b0 b1 : Z) : bool :=
  match response with
  | None => true
  | Some r => differs r 0 b0 || differs r 1 b1
  end.

(** The three packets, as the two sources build them (same text in both). *)
Definition greeting : list Z := Uint8Array [0x05; 0x01; 0x02].

Definition authPacket (proxy : ProxyEndpoint) : list Z :=
  let userBytes := encode (proxy_user proxy) in
  let passBytes := encode (proxy_pass proxy) in
  Uint8Array ([0x01; len userBytes] ++ userBytes ++ [len passBytes] ++ passBytes).

Definition connectPacket (targetHost : jsstring) (targetPort : Z) : list Z :=
  let hostBytes := encode targetHost in
  let portBytes :=
    Uint8Array [Z.land (Z.shiftr targetPort 8) 0xff; Z.land targetPort 0xff] in
  Uint8Array ([0x05; 0x01; 0x00; 0x03; len hostBytes] ++ hostBytes ++ portBytes).

(** [${response ? response[1] : 'N/A'}] *)
Definition error_code (response : option (list Z)) : jsstring :=
  match response with
  | Some r =>
      match nth_error r 1 with
      | Some v => Number_toString v
      | None => lit "undefined"
      end
  | None => lit "N/A"
  end.

(** [proxy.host] where [proxy] may be [undefined]. *)
Definition deref (proxy : option ProxyEndpoint) : M ProxyEndpoint :=
  match proxy with
  | Some p => ret p
  | None => throw (lit "Cannot read properties of undefined (reading 'host')")
  end.

(* ===================================================================== *)
(** ** Requests, responses and configuration *)
(* ===================================================================== *)

(** [new URL(request.url)]: the two fields the handlers read.  [url_port]
    is the empty string when the URL names no port. *)
Record URL := mkURL {
  url_hostname : jsstring;
  url_port : jsstring
}.

Record Request := mkRequest {
  proxy_authorization : option jsstring; (* headers.get('Proxy-Authorization') *)
  method : jsstring;
  url : URL;
  has_body : bool (* request.body is a stream; false when it is null *)
}.

Inductive Body :=
| BodyText (text : jsstring)
| BodyStream (source : Socket).

Record Response := mkResponse {
  body : Body;
  status : Z;
  statusText : jsstring;
  headers : list (jsstring * jsstring)
}.

(** What the handler returns: a response it built, or the platform's
    [fetch(request, { connect })] carried over the SOCKS5 socket. *)
Inductive Reply :=
| Respond (r : Response)
| Forwarded (socksSocket : Socket).

(** A configuration secret, seen through [JSON.parse]: text that does not
    parse, or the parsed value, which is [null] or an array of records. *)
Inductive json (A : Type) :=
| JNull
| JArray (items : list A).
Arguments JNull {A}.
Arguments JArray {A} items.

Inductive json_text (A : Type) :=
| Malformed
| Wellformed (v : json A).
Arguments Malformed {A}.
Arguments Wellformed {A} v.

Record Env := mkEnv {
  USERS_JSON : json_text UserEntry;
  PROXIES_JSON : json_text ProxyEndpoint
}.

Definition JSON_parse {A} (t : json_text A) : M (json A) :=
  match t with
  | Malformed => throw (lit "Unexpected token in JSON")
  | Wellformed v => ret v
  end.

(** [users.some(f)] *)
Definition Array_some {A} (f : A -> bool) (a : json A) : M bool :=
  match a with
  | JNull => throw (lit "Cannot read properties of null (reading 'some')")
  | JArray items => ret (existsb f items)
  end.

(** [proxies.length] *)
Definition Array_length {A} (a : json A) : M nat :=
  match a with
  | JNull => throw (lit "Cannot read properties of null (reading 'length')")
  | JArray items => ret (List.length items)
  end.

(** [proxies[i]]; out of range is [undefined]. *)
Definition Array_get {A} (a : json A) (i : nat) : option A :=
  match a with
  | JNull => None
  | JArray items => nth_error items i
  end.

(** [!proxies] *)
Definition is_null {A} (a : json A) : bool :=
  match a with
  | JNull => true
  | JArray _ => false
  end.

(** [Math.random()]; the drawn number [r] is handed on as [n => floor(r * n)]. *)
Definition Math_random (pf : Platform) : M (nat -> nat) :=
  emit EvRandom ;; ret (random_index pf).

(** [atob(s)] as a computation that may throw. *)
Definition atobM (s : jsstring) : M jsstring :=
  match atob s with
  | Some d => ret d
  | None => throw (lit "Invalid character")
  end.

(** [entry => entry.user === user && entry.pass === pass] *)
Definition matches (user pass : option jsstring) (entry : UserEntry) : bool :=
  str_eqb_undef (entry_user entry) user && str_eqb_undef (entry_pass entry) pass.

Definition is_empty (s : jsstring) : bool :=
  match s with
  | [] => true
  | _ :: _ => false
  end.

Definition quote : jsstring := [34].

Definition challenge : Response :=
  {| body := BodyText (lit "Proxy Authentication Required");
     status := 407;
     statusText := [];
     headers := [(lit "Proxy-Authenticate",
                  lit "Basic realm=" ++ quote ++ lit "Secure Proxy Gateway" ++ quote)] |}.

Definition plain (text : jsstring) (code : Z) : Response :=
  {| body := BodyText text; status := code; statusText := []; headers := [] |}.

(** [socket.readable.pipeTo(writable).catch(...)]: the relay towards the
    client, handed to the platform. *)
Definition pipe_to_client : M unit := ret tt.

(** The message of the TypeError for [null.pipeTo]. *)
Definition msg_null_body : jsstring :=
  lit "Cannot read properties of null (reading 'pipeTo')".

(** [request.body.pipeTo(socket.writable).catch(...)]: the relay towards
    the proxy.  [request.body] is null for a request without a body, and
    reading [pipeTo] of null throws. *)
Definition pipe_from_client (request : Request) : M unit :=
  if has_body request then ret tt else throw msg_null_body.

(* ===================================================================== *)
(** ** src/src/index.js *)
(* ===================================================================== *)

Module Index.

Definition msg_negotiation : jsstring :=
  lit "SOCKS5 authentication method negotiation failed.".
Definition msg_auth : jsstring :=
  lit "SOCKS5 proxy authentication failed.".
Definition msg_connect (response : option (list Z)) : jsstring :=
  lit "SOCKS5 connection failed. Error code: " ++ error_code response.

(** [socks5.connect = async function (proxy, targetHost, targetPort)] *)
Definition socks5_connect (pf : Platform) (proxy : option ProxyEndpoint)
    (targetHost : jsstring) (targetPort : Z) : M Socket :=
  emit (EvCall proxy targetHost targetPort) ;;
  p <- deref proxy ;;
  socket <- connect pf (proxy_host p) (proxy_port p) ;;
  getWriter ;;
  getReader ;;
  (* SOCKS5 Greeting *)
  writer_write greeting ;;
  response <- reader_read ;;
  if refused response 0x05 0x02 then
    socket_close ;; throw msg_negotiation
  else
  (* SOCKS5 Username/Password Authentication *)
  writer_write (authPacket p) ;;
  response <- reader_read ;;
  if refused response 0x01 0x00 then
    socket_close ;; throw msg_auth
  else
  (* SOCKS5 Connection Request *)
  writer_write (connectPacket targetHost targetPort) ;;
  response <- reader_read ;;
  if refused response 0x05 0x00 then
    socket_close ;; throw (msg_connect response)
  else
  releaseLock ;;
  releaseLock ;;
  ret socket.

(** [async fetch(request, env, ctx)] *)
Definition fetch (pf : Platform) (request : Request) (env : Env) : M Reply :=
  (* --- Step 1: Authentication --- *)
  match proxy_authorization request with
  | None => ret (Respond challenge)
  | Some authHeader =>
  if is_empty authHeader || negb (startsWith authHeader (lit "Basic ")) then
    ret (Respond challenge)
  else
  try_or_return
    (decodedCreds <- atobM (substring authHeader 6) ;;
     let segments := split colon decodedCreds in
     let user := nth_error segments 0 in
     let pass := nth_error segments 1 in
     users <- JSON_parse (USERS_JSON env) ;;
     found <- Array_some (matches user pass) users ;;
     if negb found then throw (lit "Invalid credentials") else ret tt)
    (fun err => Respond (plain (lit "Invalid Credentials") 407))
    (fun _ =>
  (* --- Step 2: Choose a Proxy (Load Balancing) --- *)
  try_or_return
    (proxies <- JSON_parse (PROXIES_JSON env) ;;
     r <- Math_random pf ;;
     n <- Array_length proxies ;;
     ret (Array_get proxies (r n)))
    (fun err => Respond (plain (lit "Proxy configuration error") 500))
    (fun chosenProxy =>
  (* --- Step 3: Handle Request Based on Method --- *)
  if str_eqb (method request) (lit "CONNECT") then
    try_or_return
      (socket <- socks5_connect pf chosenProxy (url_hostname (url request))
                   (parseInt_or (url_port (url request)) 443) ;;
       pipe_to_client ;;
       pipe_from_client request ;;
       ret (Respond {| body := BodyStream socket; status := 200;
                       statusText := lit "Connection established";
                       headers := [] |}))
      (fun err => Respond (plain err 502))
      ret
  else
    try_or_return
      (socksSocket <- socks5_connect pf chosenProxy (url_hostname (url request))
                        (parseInt_or (url_port (url request)) 80) ;;
       ret (Forwarded socksSocket))
      (fun err => Respond (plain err 502))
      ret))
  end.

End Index.

(* ===================================================================== *)
(** ** src/unnamed/part_000 *)
(* ===================================================================== *)

Module Part000.

Definition msg_negotiation : jsstring :=
  lit "SOCKS5 authentication method negotiation failed.".
Definition msg_auth : jsstring :=
  lit "SOCKS5 proxy authentication failed. Check proxy username/password.".
Definition msg_connect (response : option (list Z)) : jsstring :=
  lit "SOCKS5 connection to target failed. Proxy server replied with error code: "
  ++ error_code response.

(** [async function socks5Connect(proxy, targetHost, targetPort)] *)
Definition socks5Connect (pf : Platform) (proxy : option ProxyEndpoint)
    (targetHost : jsstring) (targetPort : Z) : M Socket :=
  emit (EvCall proxy targetHost targetPort) ;;
  p <- deref proxy ;;
  socket <- connect pf (proxy_host p) (proxy_port p) ;;
  getWriter ;;
  getReader ;;
  (* Step 1: Greeting and Authentication Method Selection *)
  writer_write greeting ;;
  response <- reader_read ;;
  if refused response 0x05 0x02 then
    socket_close ;; throw msg_negotiation
  else
  (* Step 2: Username/Password Authentication *)
  writer_write (authPacket p) ;;
  response <- reader_read ;;
  if refused response 0x01 0x00 then
    socket_close ;; throw msg_auth
  else
  (* Step 3: Connection Request *)
  writer_write (connectPacket targetHost targetPort) ;;
  response <- reader_read ;;
  if refused response 0x05 0x00 then
    socket_close ;; throw (msg_connect response)
  else
  releaseLock ;;
  releaseLock ;;
  ret socket.

(** [async fetch(request, env, ctx)] *)
Definition fetch (pf : Platform) (request : Request) (env : Env) : M Reply :=
  (* --- Step 1: Authenticate the incoming request --- *)
  match proxy_authorization request with
  | None => ret (Respond challenge)
  | Some authHeader =>
  if is_empty authHeader || negb (startsWith authHeader (lit "Basic ")) then
    ret (Respond challenge)
  else
  let encodedCreds := substring authHeader 6 in
  try_or_return
    (decodedCreds <- atobM encodedCreds ;;
     let segments := split colon decodedCreds in
     let user := nth_error segments 0 in
     let pass := nth_error segments 1 in
     users <- JSON_parse (USERS_JSON env) ;;
     isAuthenticated <- Array_some (matches user pass) users ;;
     if negb isAuthenticated then throw (lit "Invalid credentials") else ret tt)
    (fun err => Respond (plain (lit "Invalid Credentials") 407))
    (fun _ =>
  (* --- Step 2: Choose a SOCKS5 proxy (Load Balancing) --- *)
  try_or_return
    (proxies <- JSON_parse (PROXIES_JSON env) ;;
     empty <- (if is_null proxies then ret true
               else n <- Array_length proxies ;; ret (n =? 0)%nat) ;;
     if empty then throw (lit "PROXIES_JSON secret is empty or invalid.")
     else
     r <- Math_random pf ;;
     n <- Array_length proxies ;;
     ret (Array_get proxies (r n)))
    (fun err => Respond (plain (lit "Proxy configuration error") 500))
    (fun chosenProxy =>
  (* --- Step 3: Connect to the destination through the proxy --- *)
  try_or_return
    (let targetHost := url_hostname (url request) in
     let targetPort := parseInt_or (url_port (url request)) 443 in
     socket <- socks5Connect pf chosenProxy targetHost targetPort ;;
     pipe_to_client ;;
     pipe_from_client request ;;
     ret (Respond {| body := BodyStream socket; status := 200;
                     statusText := lit "Connection established";
                     headers := [] |}))
    (fun err => Respond (plain err 502))
    ret))
  end.

End Part000.

(* ===================================================================== *)
(** ** Vocabulary of the properties *)
(* ===================================================================== *)

(** The two SOCKS5 connect operations and the two handlers. *)
Definition connect_ops
  : list (Platform -> option ProxyEndpoint -> jsstring -> Z -> M Socket) :=
  [Index.socks5_connect; Part000.socks5Connect].

Definition handlers : list (Platform -> Request -> Env -> M Reply) :=
  [Index.fetch; Part000.fetch].

(** The [i]-th reply a server script gives; a script that has run out
    answers as a closed stream. *)
Definition reply (script : list read_result) (i : nat) : read_result :=
  nth i script Done.

(** A reply that passes the check for bytes [b0 b1]: a chunk whose first two
    bytes are [b0] and [b1], followed by anything. *)
Definition valid_reply (b0 b1 : Z) (r : read_result) : Prop :=
  exists extra, r = Chunk (b0 :: b1 :: extra).

(** A short or absent read: fewer than two bytes, or no chunk at all. *)
Definition short_or_absent (r : read_result) : Prop :=
  r = Done \/ exists value, r = Chunk value /\ (List.length value < 2)%nat.

(** The two status bytes expected at handshake step [k] (0, 1, 2). *)
Definition expected (k : nat) : Z * Z :=
  match k with
  | O => (0x05, 0x02)
  | S O => (0x01, 0x00)
  | _ => (0x05, 0x00)
  end.

(** Step [k] is the first to fail validation: the earlier replies pass, the
    [k]-th is delivered (the read does not reject) and does not pass. *)
Definition fails_validation_at (script : list read_result) (k : nat) : Prop :=
  (k < 3)%nat
  /\ (forall j, (j < k)%nat ->
        valid_reply (fst (expected j)) (snd (expected j)) (reply script j))
  /\ ~ valid_reply (fst (expected k)) (snd (expected k)) (reply script k)
  /\ (forall reason, reply script k <> Rejected reason).

(** The chunks written and the replies read, in trace order. *)
Fixpoint writes (tr : list event) : list (list Z) :=
  match tr with
  | EvWrite chunk :: tr' => chunk :: writes tr'
  | _ :: tr' => writes tr'
  | [] => []
  end.

Fixpoint reads (tr : list event) : list read_result :=
  match tr with
  | EvRead r :: tr' => r :: reads tr'
  | _ :: tr' => reads tr'
  | [] => []
  end.

Definition is_byte (b : Z) : Prop := 0 <= b < 256.

(** A mock SOCKS5 server that plays [script] on every endpoint. *)
Definition mock (script : list read_result) : Platform :=
  {| peer := fun _ _ => script; random_index := fun _ => 0%nat |}.

Definition proxy1 : ProxyEndpoint :=
  {| proxy_host := lit "10.0.0.1"; proxy_port := 1080;
     proxy_user := lit "u"; proxy_pass := lit "pw" |}.

Definition cooperative : list read_result :=
  [Chunk [5; 2]; Chunk [1; 0]; Chunk [5; 0; 0; 1; 0; 0; 0; 0; 0; 0]].

Definition run1 : completion Socket * Runtime :=
  Index.socks5_connect (mock cooperative) (Some proxy1) (lit "example.com") 443 boot.

Definition rejecting_greeting : list read_result := [Chunk [5; 0]].

(** The reading of replies as "exactly two bytes": the chunks read at the
    greeting step and at the authentication step hold two bytes each. *)
Definition reads_exactly_two_bytes
    (op : Platform -> option ProxyEndpoint -> jsstring -> Z -> M Socket) : Prop :=
  forall pf p targetHost targetPort i value,
    (i < 2)%nat ->
    nth_error
      (reads (trace (snd (op pf (Some p) targetHost targetPort boot)))) i =
      Some (Chunk value) ->
    List.length value = 2%nat.

(** A server that pads its first two replies. *)
Definition padded : list read_result :=
  [Chunk [5; 2; 0xAA; 0xBB]; Chunk [1; 0; 0xCC]; Chunk [5; 0]].

Definition short_greeting : list read_result := [Chunk [5]].

(** What step 1 of either handler answers: the response it returns at
    once, or [None] when it lets the request through to step 2. *)
Definition gate (authHeader : option jsstring) (users : json_text UserEntry)
  : option Response :=
  match authHeader with
  | None => Some challenge
  | Some h =>
      if is_empty h || negb (startsWith h (lit "Basic ")) then Some challenge
      else
        match atob (substring h 6), users with
        | Some decodedCreds, Wellformed (JArray store) =>
            if existsb (matches (nth_error (split colon decodedCreds) 0)
                                (nth_error (split colon decodedCreds) 1)) store
            then None
            else Some (plain (lit "Invalid Credentials") 407)
        | _, _ => Some (plain (lit "Invalid Credentials") 407)
        end
  end.

(** The credentials of the request pass the check of the handlers: the
    header is "Basic " followed by base64 text that decodes to a string whose
    first two colon-separated segments are the user and the password of a
    stored entry. *)
Definition accepted_by_store (authHeader : option jsstring)
    (users : json_text UserEntry) : Prop :=
  exists encoded decoded store entry,
    authHeader = Some (lit "Basic " ++ encoded)
    /\ atob encoded = Some decoded
    /\ users = Wellformed (JArray store)
    /\ In entry store
    /\ nth_error (split colon decoded) 0 = Some (entry_user entry)
    /\ nth_error (split colon decoded) 1 = Some (entry_pass entry).

(** The credentials of the request are in the credential store, in the
    words of the specification: the header is "Basic " followed by base64
    text that decodes to user:password for a stored pair (user, password).
    Not read off the code; the handlers test [accepted_by_store]. *)
Definition credentials_in_store (authHeader : option jsstring)
    (users : json_text UserEntry) : Prop :=
  exists encoded decoded store entry,
    authHeader = Some (lit "Basic " ++ encoded)
    /\ atob encoded = Some decoded
    /\ users = Wellformed (JArray store)
    /\ In entry store
    /\ decoded = entry_user entry ++ colon :: entry_pass entry.

(** Whatever the header decodes to has at most one colon. *)
Definition at_most_one_colon (authHeader : option jsstring) : Prop :=
  forall encoded decoded,
    authHeader = Some (lit "Basic " ++ encoded) ->
    atob encoded = Some decoded ->
    (count_occ Z.eq_dec decoded colon <= 1)%nat.




(** A request to "destination" (GET and HEAD carry no body) and a
    configuration whose credential store holds the single pair a:b. *)
Definition inbound (authorization : option jsstring) (m port : jsstring)
  : Request :=
  {| proxy_authorization := authorization;
     method := m;
     url := {| url_hostname := lit "destination"; url_port := port |};
     has_body := negb (str_eqb m (lit "GET") || str_eqb m (lit "HEAD")) |}.

(** The effects of a request that gets through a whole handshake with
    proxy [p]. *)
Definition tunnel_effects (p : ProxyEndpoint) (host : jsstring) (port : Z)
    (extra1 extra2 extra3 : list Z) : list event :=
  [EvRandom; EvCall (Some p) host port;
   EvOpen (proxy_host p) (proxy_port p);
   EvWrite greeting; EvRead (Chunk (0x05 :: 0x02 :: extra1));
   EvWrite (authPacket p); EvRead (Chunk (0x01 :: 0x00 :: extra2));
   EvWrite (connectPacket host port);
   EvRead (Chunk (0x05 :: 0x00 :: extra3))].

Definition config (proxies : json_text ProxyEndpoint) : Env :=
  {| USERS_JSON := Wellformed (JArray [mkUser (lit "a") (lit "b")]);
     PROXIES_JSON := proxies |}.

(** The default-port rule, as one rule for any handler: with no port in the
    URL, a call of the connect operation has port 443 for CONNECT and 80
    otherwise. *)
Definition default_port_by_method
    (handler : Platform -> Request -> Env -> M Reply) : Prop :=
  forall pf request env px h q,
    url_port (url request) = [] ->
    In (EvCall px h q) (trace (snd (handler pf request env boot))) ->
    q = if str_eqb (method request) (lit "CONNECT") then 443 else 80.

(** The text a failed connect request puts after "Error code: ": the
    second byte of the reply in decimal, "undefined" when the reply has no
    second byte, "N/A" when there is no reply. *)
Definition status_text (r : read_result) : jsstring :=
  match r with
  | Chunk (_ :: code :: _) => Number_toString code
  | Chunk _ => lit "undefined"
  | _ => lit "N/A"
  end.

(** A server whose transport fails at the first read. *)
Definition broken : list read_result := [Rejected (lit "Network connection lost.")].

(** A server that refuses the connect request with code 5. *)
Definition refusing : list read_result :=
  [Chunk [5; 2]; Chunk [1; 0]; Chunk [5; 5; 0; 1; 0; 0; 0; 0; 0; 0]].

(** A proxy whose user name is 256 letters long. *)
Definition long_user_proxy : ProxyEndpoint :=
  {| proxy_host := lit "10.0.0.1"; proxy_port := 1080;
     proxy_user := repeat 97 256; proxy_pass := lit "pw" |}.

(** Two outcomes that differ at most in the text of the error. *)
Definition same_outcome {A} (c1 c2 : completion A) : Prop :=
  match c1, c2 with
  | Normal a1, Normal a2 => a1 = a2
  | Throw _, Throw _ => True
  | _, _ => False
  end.

(** The error thrown when step [k] fails validation, per file. *)
Definition index_error_text (k : nat) (script : list read_result) : jsstring :=
  match k with
  | O => lit "SOCKS5 authentication method negotiation failed."
  | S O => lit "SOCKS5 proxy authentication failed."
  | _ => lit "SOCKS5 connection failed. Error code: "
         ++ status_text (reply script 2)
  end.

Definition part000_error_text (k : nat) (script : list read_result) : jsstring :=
  match k with
  | O => lit "SOCKS5 authentication method negotiation failed."
  | S O =>
      lit "SOCKS5 proxy authentication failed. Check proxy username/password."
  | _ =>
      lit "SOCKS5 connection to target failed. Proxy server replied with error code: "
      ++ status_text (reply script 2)
  end.

(** How many events of a trace satisfy a test. *)
Definition count (f : event -> bool) (tr : list event) : nat :=
  List.length (filter f tr).

Definition is_open (e : event) : bool :=
  match e with EvOpen _ _ => true | _ => false end.
Definition is_close (e : event) : bool :=
  match e with EvClose => true | _ => false end.
Definition is_random (e : event) : bool :=
  match e with EvRandom => true | _ => false end.
Definition is_call (e : event) : bool :=
  match e with EvCall _ _ _ => true | _ => false end.

(** The status of a reply the handler built itself. *)
Definition reply_status (r : Reply) : option Z :=
  match r with
  | Respond resp => Some (status resp)
  | Forwarded _ => None
  end.

(** The response of the tunnel branch once the handshake is through. *)
Definition established (socket : Socket) : Response :=
  {| body := BodyStream socket; status := 200;
     statusText := lit "Connection established"; headers := [] |}.

(** A string of ASCII characters. *)
Definition ascii_only (s : jsstring) : Prop := Forall (fun u => 0 <= u < 128) s.



(** The runtime in which either handler enters the connect operation:
    one random draw has been made. *)
Definition drawn : Runtime := {| trace := [EvRandom]; inbox := [] |}.

(** What a handler makes of the outcome of the connect operation: in the
    tunnel branch a returned socket still needs the body of the request. *)
Definition tunnel_reply (with_body : bool) (c : completion Socket) : Reply :=
  match c with
  | Normal socket =>
      if with_body then Respond (established socket)
      else Respond (plain msg_null_body 502)
  | Throw message => Respond (plain message 502)
  end.

Definition forward_reply (c : completion Socket) : Reply :=
  match c with
  | Normal socket => Forwarded socket
  | Throw message => Respond (plain message 502)
  end.

(* ===================================================================== *)
(** ** Lemmas on strings and bytes *)
(* ===================================================================== *)

Example encode_ascii : encode (lit "example.com") =
  [101; 120; 97; 109; 112; 108; 101; 46; 99; 111; 109].
Proof. reflexivity. Qed.

(* U+00E9, U+20AC, U+1F600 (a surrogate pair), then a lone low surrogate *)
Example encode_multibyte :
  encode [0xE9; 0x20AC; 0xD83D; 0xDE00; 0xDC00] =
  [0xC3; 0xA9; 0xE2; 0x82; 0xAC; 0xF0; 0x9F; 0x98; 0x80; 0xEF; 0xBF; 0xBD].
Proof. reflexivity. Qed.

Example atob_a_wrong : atob (lit "YTp3cm9uZw==") = Some (lit "a:wrong").
Proof. reflexivity. Qed.

Example atob_a_b : atob (lit "YTpi") = Some (lit "a:b").
Proof. reflexivity. Qed.

Example atob_rejects : atob (lit "YTp*") = None /\ atob (lit "YTpiY") = None.
Proof. split; reflexivity. Qed.

Example split_three : split colon (lit "a:b:c") = [lit "a"; lit "b"; lit "c"].
Proof. reflexivity. Qed.

Example parseInt_examples :
  parseInt (lit "8080") = Some 8080 /\ parseInt [] = None
  /\ parseInt (lit "0x1F") = Some 31 /\ parseInt (lit " -12px") = Some (-12)
  /\ parseInt_or [] 443 = 443 /\ parseInt_or (lit "0") 80 = 80.
Proof. repeat split; reflexivity. Qed.

Lemma str_eqb_eq (a b : jsstring) : str_eqb a b = true <-> a = b.
Proof.
  revert b; induction a as [|x a IH]; intros [|y b]; simpl;
    try (split; [discriminate | congruence]); try tauto.
  rewrite andb_true_iff, Z.eqb_eq, IH. split.
  - intros [-> ->]; reflexivity.
  - intros E; injection E; auto.
Qed.

Lemma str_eqb_refl (a : jsstring) : str_eqb a a = true.
Proof. apply str_eqb_eq; reflexivity. Qed.

Lemma startsWith_prefix (s p : jsstring) :
  startsWith s p = true -> s = p ++ skipn (List.length p) s.
Proof.
  revert s; induction p as [|y p IH]; intros s H; simpl in *.
  - reflexivity.
  - destruct s as [|x s]; [discriminate|].
    apply andb_true_iff in H as [Hx Hs]. apply Z.eqb_eq in Hx; subst.
    f_equal. apply IH, Hs.
Qed.

Lemma split_nonempty (sep : Z) (s : jsstring) : split sep s <> [].
Proof.
  destruct s as [|c t]; simpl; [discriminate|].
  destruct (c =? sep); [discriminate|].
  destruct (split sep t); discriminate.
Qed.

Lemma split_app_sep (sep : Z) (u t : jsstring) :
  ~ In sep u -> split sep (u ++ sep :: t) = u :: split sep t.
Proof.
  induction u as [|c u IH]; intros Hu; simpl.
  - rewrite Z.eqb_refl; reflexivity.
  - destruct (Z.eqb_spec c sep) as [->|_].
    + exfalso; apply Hu; left; reflexivity.
    + rewrite IH; [reflexivity|]. intros Hin; apply Hu; right; exact Hin.
Qed.

Lemma split_no_sep (sep : Z) (u : jsstring) :
  ~ In sep u -> split sep u = [u].
Proof.
  induction u as [|c u IH]; intros Hu; simpl.
  - reflexivity.
  - destruct (Z.eqb_spec c sep) as [->|_].
    + exfalso; apply Hu; left; reflexivity.
    + rewrite IH; [reflexivity|]. intros Hin; apply Hu; right; exact Hin.
Qed.


Lemma lor_byte (a b : Z) : is_byte a -> is_byte b -> is_byte (Z.lor a b).
Proof.
  unfold is_byte; intros [Ha Ha'] [Hb Hb'].
  assert (Hn : 0 <= Z.lor a b) by (apply Z.lor_nonneg; split; assumption).
  split; [exact Hn|].
  destruct (Z.eq_dec (Z.lor a b) 0) as [->|Hz]; [lia|].
  change 256 with (2 ^ 8). apply Z.log2_lt_pow2; [lia|].
  rewrite Z.log2_lor by assumption.
  assert (La : Z.log2 a < 8).
  { destruct (Z.eq_dec a 0) as [->|]; [reflexivity|].
    apply Z.log2_lt_pow2; [lia | exact Ha']. }
  assert (Lb : Z.log2 b < 8).
  { destruct (Z.eq_dec b 0) as [->|]; [reflexivity|].
    apply Z.log2_lt_pow2; [lia | exact Hb']. }
  lia.
Qed.

Lemma land_63_byte (x : Z) : is_byte (Z.land x 0x3F).
Proof.
  unfold is_byte. change 0x3F with (Z.ones 6).
  rewrite Z.land_ones by lia.
  pose proof (Z.mod_pos_bound x (2 ^ 6) eq_refl). lia.
Qed.

Lemma shiftr_byte (c n : Z) :
  0 <= n -> 0 <= c < 256 * 2 ^ n -> is_byte (Z.shiftr c n).
Proof.
  unfold is_byte; intros Hn [Hc Hc'].
  rewrite Z.shiftr_div_pow2 by exact Hn.
  assert (0 < 2 ^ n) by (apply Z.pow_pos_nonneg; lia).
  split.
  - apply Z.div_pos; lia.
  - apply Z.div_lt_upper_bound; lia.
Qed.

Lemma continuation_byte (x : Z) : is_byte (Z.lor 0x80 (Z.land x 0x3F)).
Proof. apply lor_byte; [unfold is_byte; lia | apply land_63_byte]. Qed.

Ltac each_byte :=
  repeat first [apply Forall_nil | apply Forall_cons];
  first [ apply continuation_byte
        | apply lor_byte; [unfold is_byte; lia | apply shiftr_byte; simpl; lia] ].

Lemma utf8_2_bytes (c : Z) : 0 <= c < 0x800 -> Forall is_byte (utf8_2 c).
Proof. intros Hc. unfold utf8_2. each_byte. Qed.

Lemma utf8_3_bytes (c : Z) : 0 <= c < 0x10000 -> Forall is_byte (utf8_3 c).
Proof. intros Hc. unfold utf8_3. each_byte. Qed.

Lemma utf8_4_bytes (c : Z) : 0 <= c < 0x200000 -> Forall is_byte (utf8_4 c).
Proof. intros Hc. unfold utf8_4. each_byte. Qed.

Lemma replacement_bytes : Forall is_byte replacement.
Proof.
  unfold replacement.
  repeat first [apply Forall_nil | apply Forall_cons]; unfold is_byte; lia.
Qed.

Lemma encode_cons (c : Z) (t : jsstring) :
  encode (c :: t) =
    if c <? 0x80 then c :: encode t
    else if c <? 0x800 then utf8_2 c ++ encode t
    else if is_high_surrogate c then
      match t with
      | d :: t' =>
          if is_low_surrogate d
          then utf8_4 (0x10000 + Z.shiftl (c - 0xD800) 10 + (d - 0xDC00))
               ++ encode t'
          else replacement ++ encode t
      | [] => replacement
      end
    else if is_low_surrogate c then replacement ++ encode t
    else utf8_3 c ++ encode t.
Proof. reflexivity. Qed.

(** [TextEncoder] yields bytes: by induction on a bound of the length,
    since a surrogate pair consumes two code units at once. *)
Lemma encode_bytes_bounded (n : nat) :
  forall s, (List.length s <= n)%nat -> wf_jsstring s -> Forall is_byte (encode s).
Proof.
  induction n as [|n IH]; intros s Hlen Hwf.
  - destruct s; [constructor | simpl in Hlen; lia].
  - destruct s as [|c t]; [constructor|].
    inversion Hwf as [|? ? Hc Ht]; subst. simpl in Hlen.
    assert (IHt : Forall is_byte (encode t)) by (apply IH; [lia | exact Ht]).
    rewrite encode_cons.
    destruct (Z.ltb_spec c 0x80).
    { constructor; [unfold is_byte; lia | exact IHt]. }
    destruct (Z.ltb_spec c 0x800).
    { apply Forall_app; split; [apply utf8_2_bytes; lia | exact IHt]. }
    destruct (is_high_surrogate c) eqn:Hh.
    { destruct t as [|d t']; [apply replacement_bytes|].
      destruct (is_low_surrogate d) eqn:Hl.
      - inversion Ht as [|? ? Hd Ht']; subst. simpl in Hlen.
        apply Forall_app; split; [|apply IH; [lia | exact Ht']].
        apply utf8_4_bytes.
        unfold is_high_surrogate, is_low_surrogate in Hh, Hl.
        rewrite Z.shiftl_mul_pow2 by lia. lia.
      - apply Forall_app; split; [apply replacement_bytes | exact IHt]. }
    destruct (is_low_surrogate c).
    { apply Forall_app; split; [apply replacement_bytes | exact IHt]. }
    apply Forall_app; split; [apply utf8_3_bytes; lia | exact IHt].
Qed.

Lemma encode_bytes (s : jsstring) : wf_jsstring s -> Forall is_byte (encode s).
Proof. apply (encode_bytes_bounded (List.length s)); lia. Qed.

Lemma Uint8Array_bytes (vs : list Z) : Forall is_byte vs -> Uint8Array vs = vs.
Proof.
  unfold Uint8Array; induction 1 as [|v vs Hv _ IH]; simpl; [reflexivity|].
  rewrite IH, Z.mod_small by exact Hv. reflexivity.
Qed.

(** The authentication packet is the layout of RFC 1929 whenever both
    fields fit their one-byte length prefix. *)
Lemma authPacket_layout (p : ProxyEndpoint) :
  wf_jsstring (proxy_user p) -> wf_jsstring (proxy_pass p) ->
  (List.length (encode (proxy_user p)) <= 255)%nat ->
  (List.length (encode (proxy_pass p)) <= 255)%nat ->
  authPacket p =
    [0x01; len (encode (proxy_user p))] ++ encode (proxy_user p)
    ++ [len (encode (proxy_pass p))] ++ encode (proxy_pass p).
Proof.
  intros Wu Wp Lu Lp. unfold authPacket. apply Uint8Array_bytes.
  repeat (apply Forall_app; split); try (apply encode_bytes; assumption);
    repeat first [apply Forall_nil | apply Forall_cons];
    unfold is_byte, len; lia.
Qed.

(** The connect-request packet: header, host length modulo 256, host bytes,
    port high byte, port low byte. *)
Lemma connectPacket_layout (targetHost : jsstring) (targetPort : Z) :
  wf_jsstring targetHost ->
  connectPacket targetHost targetPort =
    [0x05; 0x01; 0x00; 0x03; len (encode targetHost) mod 256]
    ++ encode targetHost
    ++ [(targetPort / 256) mod 256; targetPort mod 256].
Proof.
  intros Wh. unfold connectPacket.
  unfold Uint8Array at 1. rewrite !map_app.
  fold (Uint8Array (encode targetHost)).
  rewrite (Uint8Array_bytes (encode targetHost)) by (apply encode_bytes, Wh).
  simpl. change 255 with (Z.ones 8).
  rewrite !Z.land_ones, Z.shiftr_div_pow2 by lia.
  change (2 ^ 8) with 256. rewrite !Z.mod_mod by lia. reflexivity.
Qed.

(* ===================================================================== *)
(** ** The handshake *)
(* ===================================================================== *)

Lemma refused_false (v : list Z) (b0 b1 : Z) :
  refused (Some v) b0 b1 = false <-> exists extra, v = b0 :: b1 :: extra.
Proof.
  unfold refused, differs. split.
  - destruct v as [|x0 [|x1 extra]]; simpl; try discriminate.
    + destruct (x0 =? b0); discriminate.
    + destruct (Z.eqb_spec x0 b0), (Z.eqb_spec x1 b1); try discriminate.
      subst; intros _; exists extra; reflexivity.
  - intros [extra ->]; simpl. rewrite !Z.eqb_refl. reflexivity.
Qed.

Lemma refused_starts (b0 b1 : Z) (extra : list Z) :
  refused (Some (b0 :: b1 :: extra)) b0 b1 = false.
Proof. apply refused_false; exists extra; reflexivity. Qed.

Lemma refused_true (v : list Z) (b0 b1 : Z) :
  refused (Some v) b0 b1 = true <-> ~ valid_reply b0 b1 (Chunk v).
Proof.
  split.
  - intros H [extra E]. injection E as ->.
    assert (F : refused (Some (b0 :: b1 :: extra)) b0 b1 = false)
      by (apply refused_false; eexists; reflexivity).
    congruence.
  - intros H. destruct (refused (Some v) b0 b1) eqn:E; [reflexivity|].
    exfalso; apply H. apply refused_false in E as [extra ->].
    exists extra; reflexivity.
Qed.

Lemma short_refused (v : list Z) (b0 b1 : Z) :
  (List.length v < 2)%nat -> refused (Some v) b0 b1 = true.
Proof.
  intros H. apply refused_true. intros [extra E]. injection E as ->.
  simpl in H; lia.
Qed.

(** Symbolic execution of one handshake: unfold the monad, then case on
    each reply as the code inspects it. *)
Ltac run_handshake :=
  cbv beta iota zeta delta
    [Index.socks5_connect Part000.socks5Connect bind emit deref connect
     writer_write reader_read socket_close getWriter getReader releaseLock
     throw ret];
  cbn [trace inbox].

Ltac run_handshake_in H :=
  cbv beta iota zeta delta
    [Index.socks5_connect Part000.socks5Connect bind emit deref connect
     writer_write reader_read socket_close getWriter getReader releaseLock
     throw ret] in H;
  cbn [trace inbox] in H.

(** Name the script of the proxy's server, keeping the equation. *)
Ltac name_script pf p script Hs :=
  remember (peer pf (proxy_host p) (proxy_port p)) as script eqn:Hs.

Ltac two_ops H :=
  destruct H as [<-|[<-|[]]].

Ltac case_reply :=
  first
    [ rewrite refused_starts
    | match goal with
      | |- context [refused (Some ?v) ?a ?b] =>
          let E := fresh "E" in
          destruct (refused (Some v) a b) eqn:E;
          [| apply refused_false in E as [?extra ->]]
      end
    | progress cbn [refused]
    | match goal with
      | |- context [match ?s with [] => _ | _ :: _ => _ end] =>
          is_var s; destruct s as [|[?v| |?reason] ?s]
      end ];
  run_handshake.

(** C1. For every proxy endpoint and target address, either connect
    operation returns an established socket only at the end of the full
    exchange, in this order and with nothing in between: greeting written,
    a reply starting 05 02 read; authentication packet written, a reply
    starting 01 00 read; connect request written, a reply starting 05 00
    read.  The three replies are the first three the server gave, so a reply
    that does not pass at any step rules out an established socket. *)
Theorem established_after_three_validated_steps :
  forall op, In op connect_ops ->
  forall pf proxy targetHost targetPort rt socket rt',
    op pf proxy targetHost targetPort rt = (Normal socket, rt') ->
    exists p extra1 extra2 extra3 rest,
      proxy = Some p
      /\ socket = mkSocket (proxy_host p) (proxy_port p)
      /\ peer pf (proxy_host p) (proxy_port p) =
           Chunk (0x05 :: 0x02 :: extra1) :: Chunk (0x01 :: 0x00 :: extra2)
           :: Chunk (0x05 :: 0x00 :: extra3) :: rest
      /\ trace rt' = trace rt ++
           [EvCall proxy targetHost targetPort;
            EvOpen (proxy_host p) (proxy_port p);
            EvWrite greeting; EvRead (Chunk (0x05 :: 0x02 :: extra1));
            EvWrite (authPacket p); EvRead (Chunk (0x01 :: 0x00 :: extra2));
            EvWrite (connectPacket targetHost targetPort);
            EvRead (Chunk (0x05 :: 0x00 :: extra3))]
      /\ inbox rt' = rest.
Proof.
  intros op Hop pf proxy targetHost targetPort rt socket rt' Hrun.
  two_ops Hop.
  all: destruct proxy as [p|]; [|discriminate Hrun].
  all: run_handshake_in Hrun; name_script pf p script Hs; revert Hrun.
  all: repeat case_reply; intros Hrun; try discriminate Hrun.
  all: injection Hrun as <- <-.
  all: exists p; do 4 eexists; rewrite <- Hs; repeat split; cbn [trace inbox].
  all: rewrite <- ?app_assoc; reflexivity.
Qed.

Lemma established_after_three_validated_steps_witness :
  run1 = (Normal (mkSocket (lit "10.0.0.1") 1080), snd run1) /\
  exists p extra1 extra2 extra3 rest,
    Some proxy1 = Some p
    /\ mkSocket (lit "10.0.0.1") 1080 = mkSocket (proxy_host p) (proxy_port p)
    /\ peer (mock cooperative) (proxy_host p) (proxy_port p) =
         Chunk (0x05 :: 0x02 :: extra1) :: Chunk (0x01 :: 0x00 :: extra2)
         :: Chunk (0x05 :: 0x00 :: extra3) :: rest
    /\ trace (snd run1) = trace boot ++
         [EvCall (Some proxy1) (lit "example.com") 443;
          EvOpen (proxy_host p) (proxy_port p);
          EvWrite greeting; EvRead (Chunk (0x05 :: 0x02 :: extra1));
          EvWrite (authPacket p); EvRead (Chunk (0x01 :: 0x00 :: extra2));
          EvWrite (connectPacket (lit "example.com") 443);
          EvRead (Chunk (0x05 :: 0x00 :: extra3))]
    /\ inbox (snd run1) = rest.
Proof.
  split; [reflexivity|].
  apply (established_after_three_validated_steps
           Index.socks5_connect (or_introl eq_refl)
           (mock cooperative) (Some proxy1) (lit "example.com") 443 boot
           (mkSocket (lit "10.0.0.1") 1080) (snd run1)).
  reflexivity.
Defined.

Lemma cons_app_tail {A} (x : A) (l before tail : list A) :
  l = before ++ tail -> x :: l = (x :: before) ++ tail.
Proof. intros ->; reflexivity. Qed.

Ltac absurd_reply :=
  match goal with
  | H : valid_reply _ _ Done |- _ => destruct H as [? H]; discriminate H
  | H : valid_reply _ _ (Rejected _) |- _ => destruct H as [? H]; discriminate H
  | H : valid_reply ?a ?b (Chunk ?v), E : refused (Some ?v) ?a ?b = true |- _ =>
      apply refused_true in E; contradiction
  | H : ~ valid_reply ?a ?b (Chunk (?a :: ?b :: ?x)) |- _ =>
      exfalso; apply H; exists x; reflexivity
  | H : forall reason, Rejected ?r <> Rejected reason |- _ =>
      exfalso; apply (H r); reflexivity
  end.

(** C3. For every proxy endpoint and target address, whenever one of the
    three handshake steps fails validation (the reply read at that step is
    absent or does not start with the expected two bytes), either connect
    operation throws, and it has closed the socket first: the close is the
    last effect before the error surfaces, it directly follows the read of
    the offending reply, and nothing was closed earlier. *)
Theorem validation_failure_closes_before_error :
  forall op, In op connect_ops ->
  forall pf p targetHost targetPort rt k,
    fails_validation_at (peer pf (proxy_host p) (proxy_port p)) k ->
    exists message before,
      fst (op pf (Some p) targetHost targetPort rt) = Throw message
      /\ trace (snd (op pf (Some p) targetHost targetPort rt)) =
           trace rt ++ before
           ++ [EvRead (reply (peer pf (proxy_host p) (proxy_port p)) k); EvClose]
      /\ ~ In EvClose before.
Proof.
  intros op Hop pf p targetHost targetPort rt k (Hk & Hprev & Hbad & Hrej).
  two_ops Hop.
  all: run_handshake; name_script pf p script Hs; clear Hs.
  all: destruct k as [|[|[|k]]]; [| | |lia].
  all: try pose proof (Hprev 0%nat ltac:(lia)) as H0.
  all: try pose proof (Hprev 1%nat ltac:(lia)) as H1.
  all: clear Hprev Hk; cbn [expected fst snd] in *.
  all: repeat (case_reply; cbn [reply nth fst snd] in * ); try absurd_reply.
  all: rewrite <- ?app_assoc; cbn [app].
  all: do 2 eexists; split; [reflexivity|split].
  all: try (apply (f_equal (app (trace rt)));
            repeat first [exact (eq_refl : _ = [] ++ _) | apply cons_app_tail]).
  all: cbn [In]; intuition discriminate.
Qed.

Lemma validation_failure_closes_before_error_witness :
  fails_validation_at
    (peer (mock rejecting_greeting) (proxy_host proxy1) (proxy_port proxy1)) 0
  /\ exists message before,
       fst (Index.socks5_connect (mock rejecting_greeting) (Some proxy1)
              (lit "example.com") 443 boot) = Throw message
       /\ trace (snd (Index.socks5_connect (mock rejecting_greeting) (Some proxy1)
                        (lit "example.com") 443 boot)) =
            trace boot ++ before
            ++ [EvRead (reply (peer (mock rejecting_greeting)
                                 (proxy_host proxy1) (proxy_port proxy1)) 0);
                EvClose]
       /\ ~ In EvClose before.
Proof.
  assert (H : fails_validation_at
                (peer (mock rejecting_greeting) (proxy_host proxy1)
                   (proxy_port proxy1)) 0).
  { split; [lia|]. split; [intros j Hj; lia|].
    split; [intros [extra E]; discriminate E | intros reason; discriminate]. }
  split; [exact H|].
  exact (validation_failure_closes_before_error
           Index.socks5_connect (or_introl eq_refl)
           (mock rejecting_greeting) proxy1 (lit "example.com") 443 boot 0%nat H).
Defined.


(** C2. For target host "example.com" and target port 443 the
    connect-request packet is 05 01 00 03 0B 65 78 61 6D 70 6C 65 2E 63 6F 6D
    01 BB, and that is what either connect operation writes as its third
    packet once the first two replies have passed. *)
Theorem connect_request_example_com_443 :
  connectPacket (lit "example.com") 443 =
    [0x05; 0x01; 0x00; 0x03; 0x0B;
     0x65; 0x78; 0x61; 0x6D; 0x70; 0x6C; 0x65; 0x2E; 0x63; 0x6F; 0x6D;
     0x01; 0xBB]
  /\ forall op, In op connect_ops ->
     forall pf p extra1 extra2 rest,
       peer pf (proxy_host p) (proxy_port p) =
         Chunk (0x05 :: 0x02 :: extra1) :: Chunk (0x01 :: 0x00 :: extra2) :: rest ->
       nth_error
         (writes (trace (snd (op pf (Some p) (lit "example.com") 443 boot)))) 2 =
       Some [0x05; 0x01; 0x00; 0x03; 0x0B;
             0x65; 0x78; 0x61; 0x6D; 0x70; 0x6C; 0x65; 0x2E; 0x63; 0x6F; 0x6D;
             0x01; 0xBB].
Proof.
  assert (Hpacket : connectPacket (lit "example.com") 443 =
    [0x05; 0x01; 0x00; 0x03; 0x0B;
     0x65; 0x78; 0x61; 0x6D; 0x70; 0x6C; 0x65; 0x2E; 0x63; 0x6F; 0x6D;
     0x01; 0xBB]) by (vm_compute; reflexivity).
  split; [exact Hpacket|].
  intros op Hop pf p extra1 extra2 rest Hs.
  rewrite <- Hpacket. clear Hpacket.
  two_ops Hop.
  all: run_handshake; rewrite Hs.
  all: generalize (connectPacket (lit "example.com") 443); intros packet.
  all: generalize (lit "example.com"); intros targetHost.
  all: generalize (authPacket p); intros auth.
  all: generalize greeting; intros hello.
  all: repeat (case_reply; cbn [fst snd]).
  all: cbn [fst snd trace writes app nth_error]; reflexivity.
Qed.

Lemma connect_request_example_com_443_witness :
  peer (mock cooperative) (proxy_host proxy1) (proxy_port proxy1) =
    Chunk [0x05; 0x02] :: Chunk [0x01; 0x00]
    :: [Chunk [5; 0; 0; 1; 0; 0; 0; 0; 0; 0]]
  /\ nth_error
       (writes (trace (snd (Index.socks5_connect (mock cooperative) (Some proxy1)
                              (lit "example.com") 443 boot)))) 2 =
     Some [0x05; 0x01; 0x00; 0x03; 0x0B;
           0x65; 0x78; 0x61; 0x6D; 0x70; 0x6C; 0x65; 0x2E; 0x63; 0x6F; 0x6D;
           0x01; 0xBB].
Proof.
  split; [reflexivity|].
  exact (proj2 connect_request_example_com_443
           Index.socks5_connect (or_introl eq_refl)
           (mock cooperative) proxy1 [] []
           [Chunk [5; 0; 0; 1; 0; 0; 0; 0; 0; 0]] eq_refl).
Defined.

(** C4. For every proxy tuple whose user and password encode to at most
    255 bytes each, every target, and a server that replies 05 02, then
    01 00, then a chunk starting 05 00, either connect operation returns the
    established socket, and what it wrote is exactly three packets: the
    greeting 05 01 02, the authentication packet 01 userLen userBytes passLen
    passBytes, and the connect request 05 01 00 03 hostLen hostBytes portHigh
    portLow (the length and the two halves of the port as the byte array
    stores them, modulo 256).  Each write is followed by one read; nothing
    else happens on the socket. *)
Theorem cooperative_server_three_packets :
  forall op, In op connect_ops ->
  forall pf p targetHost targetPort rt extra more,
    wf_jsstring (proxy_user p) -> wf_jsstring (proxy_pass p) ->
    (List.length (encode (proxy_user p)) <= 255)%nat ->
    (List.length (encode (proxy_pass p)) <= 255)%nat ->
    wf_jsstring targetHost ->
    peer pf (proxy_host p) (proxy_port p) =
      Chunk [0x05; 0x02] :: Chunk [0x01; 0x00]
      :: Chunk (0x05 :: 0x00 :: extra) :: more ->
    let auth :=
      [0x01; len (encode (proxy_user p))] ++ encode (proxy_user p)
      ++ [len (encode (proxy_pass p))] ++ encode (proxy_pass p) in
    let request :=
      [0x05; 0x01; 0x00; 0x03; len (encode targetHost) mod 256]
      ++ encode targetHost
      ++ [(targetPort / 256) mod 256; targetPort mod 256] in
    let effects :=
      [EvCall (Some p) targetHost targetPort;
       EvOpen (proxy_host p) (proxy_port p);
       EvWrite [0x05; 0x01; 0x02]; EvRead (Chunk [0x05; 0x02]);
       EvWrite auth; EvRead (Chunk [0x01; 0x00]);
       EvWrite request; EvRead (Chunk (0x05 :: 0x00 :: extra))] in
    op pf (Some p) targetHost targetPort rt =
      (Normal (mkSocket (proxy_host p) (proxy_port p)),
       {| trace := trace rt ++ effects; inbox := more |})
    /\ writes effects = [[0x05; 0x01; 0x02]; auth; request].
Proof.
  intros op Hop pf p targetHost targetPort rt extra more Wu Wp Lu Lp Wh Hs
    auth request effects.
  split; [|reflexivity].
  subst effects auth request. rewrite <- (authPacket_layout p Wu Wp Lu Lp).
  rewrite <- (connectPacket_layout targetHost targetPort Wh).
  change [0x05; 0x01; 0x02] with greeting.
  two_ops Hop.
  all: run_handshake; rewrite Hs.
  all: generalize (connectPacket targetHost targetPort); intros packet.
  all: generalize (authPacket p); intros auth.
  all: generalize greeting; intros hello.
  all: repeat case_reply.
  all: rewrite <- ?app_assoc; reflexivity.
Qed.

Lemma cooperative_server_three_packets_witness :
  wf_jsstring (proxy_user proxy1) /\ wf_jsstring (proxy_pass proxy1)
  /\ (List.length (encode (proxy_user proxy1)) <= 255)%nat
  /\ (List.length (encode (proxy_pass proxy1)) <= 255)%nat
  /\ wf_jsstring (lit "example.com")
  /\ peer (mock cooperative) (proxy_host proxy1) (proxy_port proxy1) =
       Chunk [0x05; 0x02] :: Chunk [0x01; 0x00]
       :: Chunk (0x05 :: 0x00 :: [0; 1; 0; 0; 0; 0; 0; 0]) :: []
  /\ Index.socks5_connect (mock cooperative) (Some proxy1) (lit "example.com")
       443 boot =
     (Normal (mkSocket (lit "10.0.0.1") 1080),
      {| trace :=
           [EvCall (Some proxy1) (lit "example.com") 443;
            EvOpen (lit "10.0.0.1") 1080;
            EvWrite [0x05; 0x01; 0x02]; EvRead (Chunk [0x05; 0x02]);
            EvWrite [0x01; 1; 117; 2; 112; 119]; EvRead (Chunk [0x01; 0x00]);
            EvWrite [0x05; 0x01; 0x00; 0x03; 0x0B;
                     0x65; 0x78; 0x61; 0x6D; 0x70; 0x6C; 0x65; 0x2E;
                     0x63; 0x6F; 0x6D; 0x01; 0xBB];
            EvRead (Chunk [5; 0; 0; 1; 0; 0; 0; 0; 0; 0])];
         inbox := [] |}).
Proof.
  assert (Wu : wf_jsstring (proxy_user proxy1))
    by (repeat first [apply Forall_nil | apply Forall_cons]; simpl; lia).
  assert (Wp : wf_jsstring (proxy_pass proxy1))
    by (repeat first [apply Forall_nil | apply Forall_cons]; simpl; lia).
  assert (Lu : (List.length (encode (proxy_user proxy1)) <= 255)%nat)
    by (simpl; lia).
  assert (Lp : (List.length (encode (proxy_pass proxy1)) <= 255)%nat)
    by (simpl; lia).
  assert (Wh : wf_jsstring (lit "example.com"))
    by (repeat first [apply Forall_nil | apply Forall_cons]; simpl; lia).
  repeat (split; [assumption || reflexivity|]).
  exact (proj1 (cooperative_server_three_packets
                  Index.socks5_connect (or_introl eq_refl)
                  (mock cooperative) proxy1 (lit "example.com") 443 boot
                  [0; 1; 0; 0; 0; 0; 0; 0] [] Wu Wp Lu Lp Wh eq_refl)).
Defined.

(** Against C5 as stated: with the padded server the read at the greeting
    step delivers four bytes and the read at the authentication step three,
    both pass validation, and the socket is established; so neither
    operation reads exactly two bytes. *)
Lemma padded_replies_are_read_whole_and_accepted :
  fst (Index.socks5_connect (mock padded) (Some proxy1) (lit "example.com")
         443 boot) = Normal (mkSocket (lit "10.0.0.1") 1080)
  /\ reads (trace (snd (Index.socks5_connect (mock padded) (Some proxy1)
                          (lit "example.com") 443 boot))) = padded
  /\ ~ reads_exactly_two_bytes Index.socks5_connect
  /\ ~ reads_exactly_two_bytes Part000.socks5Connect.
Proof.
  split; [reflexivity|]. split; [reflexivity|].
  split; intros H.
  - specialize (H (mock padded) proxy1 (lit "example.com") 443 0%nat
                  [5; 2; 0xAA; 0xBB] ltac:(lia) eq_refl).
    discriminate H.
  - specialize (H (mock padded) proxy1 (lit "example.com") 443 0%nat
                  [5; 2; 0xAA; 0xBB] ltac:(lia) eq_refl).
    discriminate H.
Qed.

Lemma short_or_absent_refused (r : read_result) (b0 b1 : Z) :
  short_or_absent r -> ~ valid_reply b0 b1 r /\ forall reason, r <> Rejected reason.
Proof.
  intros [->|(value & -> & Hlen)]; split; try discriminate.
  - intros [extra E]; discriminate E.
  - intros [extra E]; injection E as ->. simpl in Hlen; lia.
Qed.

Ltac prune_replies :=
  repeat match goal with
    | H : _ = Chunk _ |- _ => first [discriminate H | injection H as ->]
    end;
  try absurd_reply.

(** C5, as the code has it.  At the greeting step and at the
    authentication step either connect operation performs one read, which
    takes the next reply whole, whatever its length, and checks its first two
    bytes only:
    - a short or absent read at the greeting step fails the step: the
      operation throws after greeting, read, close;
    - after a greeting reply starting 05 02 (followed by anything), a short
      or absent read at the authentication step fails the step likewise;
    - after replies starting 05 02 and 01 00 (each followed by anything) both
      steps pass and the connect request is written next. *)
Theorem one_whole_chunk_read_per_step :
  forall op, In op connect_ops ->
  forall pf p targetHost targetPort rt,
    let script := peer pf (proxy_host p) (proxy_port p) in
    let run := op pf (Some p) targetHost targetPort rt in
    (short_or_absent (reply script 0) ->
       exists message,
         fst run = Throw message
         /\ trace (snd run) = trace rt ++
              [EvCall (Some p) targetHost targetPort;
               EvOpen (proxy_host p) (proxy_port p);
               EvWrite greeting; EvRead (reply script 0); EvClose])
    /\ (forall extra1,
          reply script 0 = Chunk (0x05 :: 0x02 :: extra1) ->
          short_or_absent (reply script 1) ->
          exists message,
            fst run = Throw message
            /\ trace (snd run) = trace rt ++
                 [EvCall (Some p) targetHost targetPort;
                  EvOpen (proxy_host p) (proxy_port p);
                  EvWrite greeting; EvRead (reply script 0);
                  EvWrite (authPacket p); EvRead (reply script 1); EvClose])
    /\ (forall extra1 extra2,
          reply script 0 = Chunk (0x05 :: 0x02 :: extra1) ->
          reply script 1 = Chunk (0x01 :: 0x00 :: extra2) ->
          exists later,
            trace (snd run) = trace rt ++
              [EvCall (Some p) targetHost targetPort;
               EvOpen (proxy_host p) (proxy_port p);
               EvWrite greeting; EvRead (reply script 0);
               EvWrite (authPacket p); EvRead (reply script 1);
               EvWrite (connectPacket targetHost targetPort)] ++ later).
Proof.
  intros op Hop pf p targetHost targetPort rt script run.
  subst run. two_ops Hop.
  all: run_handshake; fold script; clearbody script.
  all: generalize (connectPacket targetHost targetPort); intros packet.
  all: generalize (authPacket p); intros auth.
  all: generalize greeting; intros hello.
  all: split; [|split].
  all: lazymatch goal with
       | |- short_or_absent _ -> _ =>
           intros Hshort;
           apply (short_or_absent_refused _ 0x05 0x02) in Hshort as [Hbad Hrej]
       | |- forall extra1, _ = _ -> short_or_absent _ -> _ =>
           intros extra1 H0 Hshort;
           apply (short_or_absent_refused _ 0x01 0x00) in Hshort as [Hbad Hrej]
       | |- _ => intros extra1 extra2 H0 H1
       end.
  all: repeat (case_reply; cbn [reply nth fst snd] in *; prune_replies).
  all: rewrite <- ?app_assoc; cbn [app].
  all: eexists; try (split; [reflexivity|]); cbn [app]; reflexivity.
Qed.

Lemma one_whole_chunk_read_per_step_witness :
  (reply (peer (mock padded) (proxy_host proxy1) (proxy_port proxy1)) 0 =
     Chunk (0x05 :: 0x02 :: [0xAA; 0xBB])
   /\ reply (peer (mock padded) (proxy_host proxy1) (proxy_port proxy1)) 1 =
        Chunk (0x01 :: 0x00 :: [0xCC])
   /\ exists later,
        trace (snd (Index.socks5_connect (mock padded) (Some proxy1)
                      (lit "example.com") 443 boot)) =
          trace boot ++
          [EvCall (Some proxy1) (lit "example.com") 443;
           EvOpen (proxy_host proxy1) (proxy_port proxy1);
           EvWrite greeting;
           EvRead (reply (peer (mock padded) (proxy_host proxy1)
                            (proxy_port proxy1)) 0);
           EvWrite (authPacket proxy1);
           EvRead (reply (peer (mock padded) (proxy_host proxy1)
                            (proxy_port proxy1)) 1);
           EvWrite (connectPacket (lit "example.com") 443)] ++ later)
  /\ (short_or_absent
        (reply (peer (mock short_greeting) (proxy_host proxy1)
                  (proxy_port proxy1)) 0)
      /\ exists message,
           fst (Part000.socks5Connect (mock short_greeting) (Some proxy1)
                  (lit "example.com") 443 boot) = Throw message
           /\ trace (snd (Part000.socks5Connect (mock short_greeting)
                            (Some proxy1) (lit "example.com") 443 boot)) =
                trace boot ++
                [EvCall (Some proxy1) (lit "example.com") 443;
                 EvOpen (proxy_host proxy1) (proxy_port proxy1);
                 EvWrite greeting;
                 EvRead (reply (peer (mock short_greeting) (proxy_host proxy1)
                                  (proxy_port proxy1)) 0);
                 EvClose]).
Proof.
  split.
  - split; [reflexivity|]. split; [reflexivity|].
    exact (proj2 (proj2 (one_whole_chunk_read_per_step
                           Index.socks5_connect (or_introl eq_refl)
                           (mock padded) proxy1 (lit "example.com") 443 boot))
             [0xAA; 0xBB] [0xCC] eq_refl eq_refl).
  - assert (H : short_or_absent
                  (reply (peer (mock short_greeting) (proxy_host proxy1)
                            (proxy_port proxy1)) 0)).
    { right; exists [5]; split; [reflexivity | simpl; lia]. }
    split; [exact H|].
    exact (proj1 (one_whole_chunk_read_per_step
                    Part000.socks5Connect (or_intror (or_introl eq_refl))
                    (mock short_greeting) proxy1 (lit "example.com") 443 boot)
             H).
Defined.

(* ===================================================================== *)
(** ** The handlers *)
(* ===================================================================== *)

Ltac run_fetch :=
  cbv beta iota zeta delta
    [Index.fetch Part000.fetch try_or_return bind ret throw atobM JSON_parse
     Array_some Array_length Array_get is_null Math_random emit
     pipe_to_client pipe_from_client].

Ltac two_handlers H :=
  destruct H as [<-|[<-|[]]].

Lemma str_eqb_undef_true (a : jsstring) (b : option jsstring) :
  str_eqb_undef a b = true <-> b = Some a.
Proof.
  destruct b as [b|]; simpl.
  - rewrite str_eqb_eq. split; [intros ->; reflexivity | intros E; injection E; auto].
  - split; discriminate.
Qed.

Lemma matches_true (user pass : option jsstring) (entry : UserEntry) :
  matches user pass entry = true <->
  user = Some (entry_user entry) /\ pass = Some (entry_pass entry).
Proof.
  unfold matches. rewrite andb_true_iff, !str_eqb_undef_true. tauto.
Qed.

Lemma basic_header (encoded : jsstring) :
  is_empty (lit "Basic " ++ encoded)
  || negb (startsWith (lit "Basic " ++ encoded) (lit "Basic ")) = false
  /\ substring (lit "Basic " ++ encoded) 6 = encoded.
Proof. split; reflexivity. Qed.

(** Step 1 of both handlers is [gate]: a response of the gate is returned
    as it is, with no effect performed. *)
Lemma gate_answer :
  forall handler, In handler handlers ->
  forall pf request env rt r,
    gate (proxy_authorization request) (USERS_JSON env) = Some r ->
    handler pf request env rt = (Normal (Respond r), rt).
Proof.
  intros handler Hh pf request env rt r. unfold gate.
  two_handlers Hh; run_fetch.
  all: destruct (proxy_authorization request) as [h|];
         [|intros E; injection E as <-; reflexivity].
  all: destruct (is_empty h || negb (startsWith h (lit "Basic ")));
         [intros E; injection E as <-; reflexivity|].
  all: destruct (atob (substring h 6)) as [decoded|];
         [|intros E; injection E as <-; reflexivity].
  all: destruct (USERS_JSON env) as [|[|store]];
         try (intros E; injection E as <-; reflexivity).
  all: destruct (existsb _ store); [discriminate|].
  all: intros E; injection E as <-; reflexivity.
Qed.


Lemma gate_status (authHeader : option jsstring) (users : json_text UserEntry)
    (r : Response) :
  gate authHeader users = Some r -> status r = 407.
Proof.
  unfold gate. destruct authHeader as [h|]; [|intros E; injection E as <-; reflexivity].
  destruct (is_empty h || negb (startsWith h (lit "Basic ")));
    [intros E; injection E as <-; reflexivity|].
  destruct (atob (substring h 6)); [|intros E; injection E as <-; reflexivity].
  destruct users as [|[|store]]; try (intros E; injection E as <-; reflexivity).
  destruct (existsb _ store); [discriminate|].
  intros E; injection E as <-; reflexivity.
Qed.

Lemma gate_open_iff (authHeader : option jsstring) (users : json_text UserEntry) :
  gate authHeader users = None <-> accepted_by_store authHeader users.
Proof.
  split.
  - unfold gate. destruct authHeader as [h|]; [|discriminate].
    destruct (is_empty h || negb (startsWith h (lit "Basic "))) eqn:Eh;
      [discriminate|].
    apply orb_false_iff in Eh as [_ Eh]. apply negb_false_iff in Eh.
    apply startsWith_prefix in Eh.
    destruct (atob (substring h 6)) as [decoded|] eqn:Ea; [|discriminate].
    destruct users as [|[|store]]; try discriminate.
    destruct (existsb _ store) eqn:Ex; [|discriminate]. intros _.
    apply existsb_exists in Ex as (entry & Hin & Hm).
    apply matches_true in Hm as [Hu Hp].
    exists (substring h 6), decoded, store, entry.
    repeat split; try assumption. f_equal. exact Eh.
  - intros (encoded & decoded & store & entry & -> & Ea & -> & Hin & Hu & Hp).
    unfold gate. destruct (basic_header encoded) as [-> ->]. rewrite Ea.
    assert (Ex : existsb (matches (nth_error (split colon decoded) 0)
                                  (nth_error (split colon decoded) 1)) store
                 = true).
    { apply existsb_exists. exists entry. split; [exact Hin|].
      apply matches_true. split; assumption. }
    rewrite Ex. reflexivity.
Qed.

(** What follows "Basic " in a header is what the handlers decode. *)
Lemma basic_encoded (h encoded : jsstring) :
  Some h = Some (lit "Basic " ++ encoded) -> encoded = substring h 6.
Proof. intros E. injection E as ->. reflexivity. Qed.

(** The first colon of a string. *)
Lemma first_colon (s : jsstring) :
  In colon s -> exists a b, s = a ++ colon :: b /\ ~ In colon a.
Proof.
  induction s as [|c t IH]; [intros []|].
  destruct (Z.eq_dec c colon) as [->|Hc].
  - intros _. exists [], t. split; [reflexivity | intros []].
  - intros [E|Hin]; [contradiction|].
    destruct (IH Hin) as (a & b & -> & Ha).
    exists (c :: a), b. split; [reflexivity|].
    intros [E|H]; [apply Hc; exact E | apply Ha; exact H].
Qed.

(** With at most one colon, the first two segments are the text before and
    the text after the colon. *)
Lemma one_colon_pair (decoded user pass : jsstring) :
  (count_occ Z.eq_dec decoded colon <= 1)%nat ->
  (nth_error (split colon decoded) 0 = Some user
   /\ nth_error (split colon decoded) 1 = Some pass)
  <-> decoded = user ++ colon :: pass.
Proof.
  intros Hc. split.
  - intros [Hu Hp].
    destruct (in_dec Z.eq_dec colon decoded) as [Hin|Hno].
    + destruct (first_colon decoded Hin) as (a & b & -> & Ha).
      rewrite count_occ_app in Hc. cbn [count_occ] in Hc.
      destruct (Z.eq_dec colon colon) as [_|N]; [|contradiction].
      assert (Hb : ~ In colon b).
      { apply (count_occ_not_In Z.eq_dec). lia. }
      rewrite (split_app_sep colon a b Ha), (split_no_sep colon b Hb) in Hu, Hp.
      cbn [nth_error] in Hu, Hp.
      injection Hu as <-. injection Hp as <-. reflexivity.
    + rewrite (split_no_sep colon decoded Hno) in Hp. discriminate Hp.
  - intros ->.
    rewrite count_occ_app in Hc. cbn [count_occ] in Hc.
    destruct (Z.eq_dec colon colon) as [_|N]; [|contradiction].
    assert (Hu : ~ In colon user).
    { apply (count_occ_not_In Z.eq_dec). lia. }
    assert (Hp : ~ In colon pass).
    { apply (count_occ_not_In Z.eq_dec). lia. }
    rewrite (split_app_sep colon user pass Hu), (split_no_sep colon pass Hp).
    split; reflexivity.
Qed.

(** For credentials with at most one colon, the check of the handlers is
    membership in the store. *)
Lemma check_is_membership (authHeader : option jsstring)
    (users : json_text UserEntry) :
  at_most_one_colon authHeader ->
  accepted_by_store authHeader users <-> credentials_in_store authHeader users.
Proof.
  intros H1. split.
  - intros (encoded & decoded & store & entry & Eh & Ea & Eu & Hin & Hu & Hp).
    exists encoded, decoded, store, entry. repeat split; try assumption.
    apply (one_colon_pair decoded); [exact (H1 encoded decoded Eh Ea) | auto].
  - intros (encoded & decoded & store & entry & Eh & Ea & Eu & Hin & Hd).
    exists encoded, decoded, store, entry.
    apply (one_colon_pair decoded) in Hd; [|exact (H1 encoded decoded Eh Ea)].
    destruct Hd as [Hu Hp]. repeat split; assumption.
Qed.

(** Against C8 as stated.  "YTpiOmM=" is base64 for a:b:c, user a with
    password b:c, and the store holds only the pair (a, b): these
    credentials are not in the store.  Both handlers cut the decoded text at
    every colon, compare a and b, and go on: a proxy is drawn, the connect
    operation is called, a socket is opened and the three handshake packets
    are written on it, and the answer is 200, not 407. *)
Lemma extra_colon_credentials_are_proxied :
  atob (lit "YTpiOmM=") = Some (lit "a:b:c")
  /\ USERS_JSON (config (Wellformed (JArray [proxy1]))) =
       Wellformed (JArray [mkUser (lit "a") (lit "b")])
  /\ ~ credentials_in_store (Some (lit "Basic YTpiOmM="))
         (USERS_JSON (config (Wellformed (JArray [proxy1]))))
  /\ Index.fetch (mock cooperative)
       (inbound (Some (lit "Basic YTpiOmM=")) (lit "CONNECT") [])
       (config (Wellformed (JArray [proxy1]))) boot =
     (Normal (Respond (established (mkSocket (lit "10.0.0.1") 1080))),
      {| trace := tunnel_effects proxy1 (lit "destination") 443
                    [] [] [0; 1; 0; 0; 0; 0; 0; 0];
         inbox := [] |})
  /\ Part000.fetch (mock cooperative)
       (inbound (Some (lit "Basic YTpiOmM=")) (lit "CONNECT") [])
       (config (Wellformed (JArray [proxy1]))) boot =
     (Normal (Respond (established (mkSocket (lit "10.0.0.1") 1080))),
      {| trace := tunnel_effects proxy1 (lit "destination") 443
                    [] [] [0; 1; 0; 0; 0; 0; 0; 0];
         inbox := [] |})
  /\ status (established (mkSocket (lit "10.0.0.1") 1080)) = 200
  /\ writes (tunnel_effects proxy1 (lit "destination") 443
               [] [] [0; 1; 0; 0; 0; 0; 0; 0]) =
       [greeting; authPacket proxy1; connectPacket (lit "destination") 443].
Proof.
  split; [vm_compute; reflexivity|]. split; [reflexivity|]. split.
  - intros (encoded & decoded & store & entry & Eh & Ea & Eu & Hin & Hd).
    apply basic_encoded in Eh. change (encoded = lit "YTpiOmM=") in Eh.
    subst encoded.
    assert (E : atob (lit "YTpiOmM=") = Some (lit "a:b:c"))
      by (vm_compute; reflexivity).
    rewrite E in Ea. injection Ea as <-.
    injection Eu as <-. destruct Hin as [<-|[]].
    discriminate Hd.
  - split; [vm_compute; reflexivity|]. split; [vm_compute; reflexivity|].
    split; reflexivity.
Qed.

(** C8, amended.  For every inbound request whose credentials the check
    rejects (header missing, not Basic, not decodable, store unusable, or no
    stored pair equal to the first two colon-separated segments of the
    decoded text), either handler returns a 407 response and leaves the
    runtime as it found it: no random draw, no call of the SOCKS5 connect
    operation, no socket opened, no byte written.  For credentials that
    decode to text with at most one colon, the check is membership in the
    store, so there the same holds for every request whose user:password is
    not a stored pair. *)
Theorem rejected_before_any_proxy_effect :
  forall handler, In handler handlers ->
  forall pf request env,
    (~ accepted_by_store (proxy_authorization request) (USERS_JSON env) ->
     exists r,
       handler pf request env boot = (Normal (Respond r), boot)
       /\ status r = 407
       /\ trace (snd (handler pf request env boot)) = [])
    /\ (at_most_one_colon (proxy_authorization request) ->
        ~ credentials_in_store (proxy_authorization request) (USERS_JSON env) ->
        exists r,
          handler pf request env boot = (Normal (Respond r), boot)
          /\ status r = 407
          /\ trace (snd (handler pf request env boot)) = []).
Proof.
  intros handler Hh pf request env.
  assert (Hgate : ~ accepted_by_store (proxy_authorization request)
                      (USERS_JSON env) ->
                  exists r,
                    handler pf request env boot = (Normal (Respond r), boot)
                    /\ status r = 407
                    /\ trace (snd (handler pf request env boot)) = []).
  { intros Hno.
    destruct (gate (proxy_authorization request) (USERS_JSON env)) as [r|] eqn:G.
    - exists r. rewrite (gate_answer handler Hh pf request env boot r G).
      split; [reflexivity|]. split; [exact (gate_status _ _ _ G) | reflexivity].
    - exfalso. apply Hno. apply gate_open_iff. exact G. }
  split; [exact Hgate|].
  intros H1 Hno. apply Hgate. intros A. apply Hno.
  apply (check_is_membership _ _ H1). exact A.
Qed.

(** "YTp3cm9uZw==" is base64 for a:wrong, "YTpi" for a:b. *)
Lemma rejected_before_any_proxy_effect_witness :
  (~ accepted_by_store
       (proxy_authorization (inbound (Some (lit "Basic YTp3cm9uZw==")) (lit "CONNECT") []))
       (USERS_JSON (config (Wellformed (JArray [proxy1]))))
   /\ at_most_one_colon
        (proxy_authorization (inbound (Some (lit "Basic YTp3cm9uZw==")) (lit "CONNECT") []))
   /\ ~ credentials_in_store
          (proxy_authorization (inbound (Some (lit "Basic YTp3cm9uZw==")) (lit "CONNECT") []))
          (USERS_JSON (config (Wellformed (JArray [proxy1])))))
  /\ (exists r,
        Index.fetch (mock cooperative)
          (inbound (Some (lit "Basic YTp3cm9uZw==")) (lit "CONNECT") [])
          (config (Wellformed (JArray [proxy1]))) boot = (Normal (Respond r), boot)
        /\ status r = 407
        /\ trace (snd (Index.fetch (mock cooperative)
                         (inbound (Some (lit "Basic YTp3cm9uZw==")) (lit "CONNECT") [])
                         (config (Wellformed (JArray [proxy1]))) boot)) = [])
  /\ (exists r,
        Part000.fetch (mock cooperative)
          (inbound (Some (lit "Basic YTp3cm9uZw==")) (lit "CONNECT") [])
          (config (Wellformed (JArray [proxy1]))) boot = (Normal (Respond r), boot)
        /\ status r = 407
        /\ trace (snd (Part000.fetch (mock cooperative)
                         (inbound (Some (lit "Basic YTp3cm9uZw==")) (lit "CONNECT") [])
                         (config (Wellformed (JArray [proxy1]))) boot)) = []).
Proof.
  assert (E : atob (lit "YTp3cm9uZw==") = Some (lit "a:wrong"))
    by (vm_compute; reflexivity).
  assert (H : ~ accepted_by_store
                (proxy_authorization
                   (inbound (Some (lit "Basic YTp3cm9uZw==")) (lit "CONNECT") []))
                (USERS_JSON (config (Wellformed (JArray [proxy1]))))).
  { intros A. apply gate_open_iff in A. vm_compute in A. discriminate A. }
  assert (H1 : at_most_one_colon
                 (proxy_authorization
                    (inbound (Some (lit "Basic YTp3cm9uZw==")) (lit "CONNECT") []))).
  { intros encoded decoded Eh Ea.
    apply basic_encoded in Eh. change (encoded = lit "YTp3cm9uZw==") in Eh.
    subst encoded.
    rewrite E in Ea. injection Ea as <-. vm_compute. lia. }
  assert (H2 : ~ credentials_in_store
                 (proxy_authorization
                    (inbound (Some (lit "Basic YTp3cm9uZw==")) (lit "CONNECT") []))
                 (USERS_JSON (config (Wellformed (JArray [proxy1]))))).
  { intros (encoded & decoded & store & entry & Eh & Ea & Eu & Hin & Hd).
    apply basic_encoded in Eh. change (encoded = lit "YTp3cm9uZw==") in Eh.
    subst encoded.
    rewrite E in Ea. injection Ea as <-.
    injection Eu as <-. destruct Hin as [<-|[]]. discriminate Hd. }
  split; [split; [exact H | split; [exact H1 | exact H2]]|]. split.
  - exact (proj1 (rejected_before_any_proxy_effect Index.fetch (or_introl eq_refl)
                    (mock cooperative)
                    (inbound (Some (lit "Basic YTp3cm9uZw==")) (lit "CONNECT") [])
                    (config (Wellformed (JArray [proxy1])))) H).
  - exact (proj2 (rejected_before_any_proxy_effect Part000.fetch
                    (or_intror (or_introl eq_refl))
                    (mock cooperative)
                    (inbound (Some (lit "Basic YTp3cm9uZw==")) (lit "CONNECT") [])
                    (config (Wellformed (JArray [proxy1])))) H1 H2).
Defined.

(** C7, evaluated.  With credentials a:wrong against the store a:b both
    handlers answer 407 "Invalid Credentials" with an empty header list: the
    response carries no Proxy-Authenticate challenge.  The branch for a
    missing header, a few lines above in the same functions, does carry it. *)
Theorem wrong_credentials_407_without_challenge :
  forall pf proxies,
    Index.fetch pf (inbound (Some (lit "Basic YTp3cm9uZw==")) (lit "CONNECT") [])
      (config proxies) boot =
      (Normal (Respond (plain (lit "Invalid Credentials") 407)), boot)
    /\ Part000.fetch pf (inbound (Some (lit "Basic YTp3cm9uZw==")) (lit "CONNECT") [])
         (config proxies) boot =
         (Normal (Respond (plain (lit "Invalid Credentials") 407)), boot)
    /\ headers (plain (lit "Invalid Credentials") 407) = []
    /\ Index.fetch pf (inbound None (lit "CONNECT") []) (config proxies) boot =
         (Normal (Respond challenge), boot)
    /\ Part000.fetch pf (inbound None (lit "CONNECT") []) (config proxies) boot =
         (Normal (Respond challenge), boot)
    /\ map fst (headers challenge) = [lit "Proxy-Authenticate"].
Proof.
  intros pf proxies.
  split; [vm_compute; reflexivity|].
  split; [vm_compute; reflexivity|].
  split; [reflexivity|].
  split; [vm_compute; reflexivity|].
  split; [vm_compute; reflexivity|].
  vm_compute; reflexivity.
Qed.

(** Every call of a connect operation is recorded once, with its
    arguments, ahead of whatever the operation does next. *)
Lemma call_recorded :
  forall op, In op connect_ops ->
  forall pf proxy targetHost targetPort rt px h q,
    In (EvCall px h q) (trace (snd (op pf proxy targetHost targetPort rt))) ->
    In (EvCall px h q) (trace rt)
    \/ (px = proxy /\ h = targetHost /\ q = targetPort).
Proof.
  intros op Hop pf proxy targetHost targetPort rt px h q.
  two_ops Hop.
  all: destruct proxy as [p|]; run_handshake.
  all: try (generalize (peer pf (proxy_host p) (proxy_port p)); intros script).
  all: repeat case_reply.
  all: cbn [snd trace]; rewrite ?in_app_iff; cbn [In]; intros H.
  all: repeat match goal with
         | H : _ \/ _ |- _ => destruct H as [H|H]
         end; try discriminate; try contradiction.
  all: first [left; assumption | right; injection H as <- <- <-; auto].
Qed.

Lemma call_happens :
  forall op, In op connect_ops ->
  forall pf proxy targetHost targetPort rt,
    In (EvCall proxy targetHost targetPort)
       (trace (snd (op pf proxy targetHost targetPort rt))).
Proof.
  intros op Hop pf proxy targetHost targetPort rt.
  two_ops Hop.
  all: destruct proxy as [p|]; run_handshake.
  all: try (generalize (peer pf (proxy_host p) (proxy_port p)); intros script).
  all: repeat case_reply.
  all: cbn [snd trace]; rewrite ?in_app_iff; cbn [In]; tauto.
Qed.

(** Case analysis along a handler, in the order the code tests things. *)
Ltac gate_case :=
  lazymatch goal with
  | |- context [match proxy_authorization ?r with Some _ => _ | None => _ end] =>
      destruct (proxy_authorization r) as [?h|]
  | |- context [is_empty ?h || negb (startsWith ?h ?b)] =>
      destruct (is_empty h || negb (startsWith h b))
  | |- context [match atob ?x with Some _ => _ | None => _ end] =>
      destruct (atob x) as [?decoded|]
  | |- context [match USERS_JSON ?e with Malformed => _ | Wellformed _ => _ end] =>
      destruct (USERS_JSON e) as [|[|?store]]
  | |- context [existsb (matches ?u ?p) ?l] =>
      destruct (existsb (matches u p) l)
  | |- context [match PROXIES_JSON ?e with Malformed => _ | Wellformed _ => _ end] =>
      destruct (PROXIES_JSON e) as [|[|?ps]]
  | |- context [(List.length ?ps =? 0)%nat] =>
      destruct ps as [|?p0 ?ps]
  | |- context [str_eqb (method ?r) ?c] =>
      destruct (str_eqb (method r) c)
  | |- context [has_body ?r] =>
      destruct (has_body r)
  end;
  run_fetch; cbn [negb Nat.eqb List.length fst snd trace inbox boot app].

Ltac call_case :=
  lazymatch goal with
  | |- context [Index.socks5_connect ?a ?b ?c ?d ?e] =>
      let R := fresh "Erun" in
      destruct (Index.socks5_connect a b c d e) as [[?sock|?m] ?rt2] eqn:R;
      apply (f_equal snd) in R; cbn [snd] in R
  | |- context [Part000.socks5Connect ?a ?b ?c ?d ?e] =>
      let R := fresh "Erun" in
      destruct (Part000.socks5Connect a b c d e) as [[?sock|?m] ?rt2] eqn:R;
      apply (f_equal snd) in R; cbn [snd] in R
  end;
  run_fetch; cbn [negb Nat.eqb List.length fst snd trace inbox boot app].

Ltac fetch_case := first [gate_case | call_case].

(** Whatever call a handler makes, it makes with the host of the URL and
    with the port of the URL, or the handler's default when the URL has
    none. *)
Lemma index_call_arguments (pf : Platform) (request : Request) (env : Env)
    (px : option ProxyEndpoint) (h : jsstring) (q : Z) :
  In (EvCall px h q) (trace (snd (Index.fetch pf request env boot))) ->
  h = url_hostname (url request)
  /\ q = parseInt_or (url_port (url request))
           (if str_eqb (method request) (lit "CONNECT") then 443 else 80).
Proof.
  run_fetch. repeat fetch_case.
  all: try (intros []; fail).
  all: try (intros [H|[]]; discriminate H).
  all: intros H; rewrite <- Erun in H;
    apply (call_recorded _ (or_introl eq_refl)) in H.
  all: destruct H as [[H|[]]|(_ & -> & ->)]; [discriminate H|].
  all: split; reflexivity.
Qed.

Lemma part000_call_arguments (pf : Platform) (request : Request) (env : Env)
    (px : option ProxyEndpoint) (h : jsstring) (q : Z) :
  In (EvCall px h q) (trace (snd (Part000.fetch pf request env boot))) ->
  h = url_hostname (url request)
  /\ q = parseInt_or (url_port (url request)) 443.
Proof.
  run_fetch. repeat fetch_case.
  all: try (intros []; fail).
  all: try (intros [H|[]]; discriminate H).
  all: intros H; rewrite <- Erun in H;
    apply (call_recorded _ (or_intror (or_introl eq_refl))) in H.
  all: destruct H as [[H|[]]|(_ & -> & ->)]; [discriminate H|].
  all: split; reflexivity.
Qed.

(** A request that passes the gate reaches the call, with the proxy drawn
    from the list. *)
Lemma index_call_happens (pf : Platform) (request : Request) (env : Env)
    (ps : list ProxyEndpoint) :
  accepted_by_store (proxy_authorization request) (USERS_JSON env) ->
  PROXIES_JSON env = Wellformed (JArray ps) ->
  In (EvCall (nth_error ps (random_index pf (List.length ps)))
        (url_hostname (url request))
        (parseInt_or (url_port (url request))
           (if str_eqb (method request) (lit "CONNECT") then 443 else 80)))
     (trace (snd (Index.fetch pf request env boot))).
Proof.
  intros A Hp. apply gate_open_iff in A. revert A. unfold gate.
  run_fetch. rewrite Hp. run_fetch.
  repeat fetch_case; try discriminate.
  all: intros _; rewrite <- Erun; apply call_happens; left; reflexivity.
Qed.

Lemma part000_call_happens (pf : Platform) (request : Request) (env : Env)
    (ps : list ProxyEndpoint) :
  accepted_by_store (proxy_authorization request) (USERS_JSON env) ->
  PROXIES_JSON env = Wellformed (JArray ps) ->
  ps <> [] ->
  In (EvCall (nth_error ps (random_index pf (List.length ps)))
        (url_hostname (url request))
        (parseInt_or (url_port (url request)) 443))
     (trace (snd (Part000.fetch pf request env boot))).
Proof.
  intros A Hp Hne. apply gate_open_iff in A. revert A. unfold gate.
  run_fetch. rewrite Hp. run_fetch.
  repeat fetch_case; try discriminate; try contradiction.
  all: intros _; rewrite <- Erun; apply call_happens; right; left; reflexivity.
Qed.

(** With an empty proxy list the two handlers part ways. *)
Lemma index_empty_proxy_list (pf : Platform) (request : Request) (env : Env) :
  accepted_by_store (proxy_authorization request) (USERS_JSON env) ->
  PROXIES_JSON env = Wellformed (JArray []) ->
  Index.fetch pf request env boot =
    (Normal (Respond
               (plain (lit "Cannot read properties of undefined (reading 'host')")
                  502)),
     {| trace :=
          [EvRandom;
           EvCall None (url_hostname (url request))
             (parseInt_or (url_port (url request))
                (if str_eqb (method request) (lit "CONNECT") then 443 else 80))];
        inbox := [] |}).
Proof.
  intros A Hp. apply gate_open_iff in A. revert A. unfold gate.
  run_fetch. rewrite Hp. run_fetch. cbn [List.length]. rewrite nth_error_nil.
  repeat gate_case; try discriminate.
  all: intros _; run_handshake; reflexivity.
Qed.

Lemma part000_empty_proxy_list (pf : Platform) (request : Request) (env : Env) :
  accepted_by_store (proxy_authorization request) (USERS_JSON env) ->
  PROXIES_JSON env = Wellformed (JArray []) ->
  Part000.fetch pf request env boot =
    (Normal (Respond (plain (lit "Proxy configuration error") 500)), boot).
Proof.
  intros A Hp. apply gate_open_iff in A. revert A. unfold gate.
  run_fetch. rewrite Hp. run_fetch. cbn [List.length Nat.eqb].
  repeat gate_case; try discriminate.
  all: intros _; reflexivity.
Qed.

(** A proxy list that does not parse is a configuration error in both
    handlers, before any effect. *)
Lemma unparseable_proxy_list_500 :
  forall handler, In handler handlers ->
  forall pf request env,
    accepted_by_store (proxy_authorization request) (USERS_JSON env) ->
    PROXIES_JSON env = Malformed ->
    handler pf request env boot =
      (Normal (Respond (plain (lit "Proxy configuration error") 500)), boot).
Proof.
  intros handler Hh pf request env A Hp.
  apply gate_open_iff in A. revert A. unfold gate.
  two_handlers Hh; run_fetch; rewrite Hp; run_fetch.
  all: repeat gate_case; try discriminate.
  all: intros _; reflexivity.
Qed.

Lemma a_b_accepted (m port : jsstring) (proxies : json_text ProxyEndpoint) :
  accepted_by_store
    (proxy_authorization (inbound (Some (lit "Basic YTpi")) m port))
    (USERS_JSON (config proxies)).
Proof. apply gate_open_iff. vm_compute. reflexivity. Qed.

(** C6, evaluated.  With valid credentials a:b and the proxy list [[]],
    the handler of src/src/index.js draws an index, gets [undefined], calls
    the connect operation with it, and answers 502 with the TypeError text
    (no socket is opened).  The handler of src/unnamed/part_000 tests for the
    empty list and answers 500 "Proxy configuration error". *)
Theorem empty_proxy_list_502_in_index :
  forall pf,
    Index.fetch pf (inbound (Some (lit "Basic YTpi")) (lit "CONNECT") [])
      (config (Wellformed (JArray []))) boot =
      (Normal (Respond
                 (plain (lit "Cannot read properties of undefined (reading 'host')")
                    502)),
       {| trace := [EvRandom; EvCall None (lit "destination") 443];
          inbox := [] |})
    /\ Part000.fetch pf (inbound (Some (lit "Basic YTpi")) (lit "CONNECT") [])
         (config (Wellformed (JArray []))) boot =
         (Normal (Respond (plain (lit "Proxy configuration error") 500)), boot).
Proof.
  intros pf. split.
  - rewrite (index_empty_proxy_list pf _ _ (a_b_accepted _ _ _) eq_refl).
    reflexivity.
  - exact (part000_empty_proxy_list pf _ _ (a_b_accepted _ _ _) eq_refl).
Qed.

Ltac find_event := vm_compute; repeat first [left; reflexivity | right].

(** Against C9 as stated: the CONNECT-only handler of part_000 sends a GET
    request without a port to port 443, not 80. *)
Lemma part000_get_without_port_uses_443 :
  In (EvCall (Some proxy1) (lit "destination") 443)
     (trace (snd (Part000.fetch (mock cooperative)
                    (inbound (Some (lit "Basic YTpi")) (lit "GET") [])
                    (config (Wellformed (JArray [proxy1]))) boot)))
  /\ ~ default_port_by_method Part000.fetch.
Proof.
  assert (H : In (EvCall (Some proxy1) (lit "destination") 443)
     (trace (snd (Part000.fetch (mock cooperative)
                    (inbound (Some (lit "Basic YTpi")) (lit "GET") [])
                    (config (Wellformed (JArray [proxy1]))) boot))))
    by find_event.
  split; [exact H|].
  intros D.
  specialize (D (mock cooperative)
                (inbound (Some (lit "Basic YTpi")) (lit "GET") [])
                (config (Wellformed (JArray [proxy1]))) _ _ _ eq_refl H).
  vm_compute in D. discriminate D.
Qed.

(** C9, as the code has it.  For every inbound request whose URL names no
    port: the handler of src/src/index.js calls the connect operation with
    port 443 when the method is CONNECT and with port 80 for every other
    method; the handler of src/unnamed/part_000, which never looks at the
    method, calls it with port 443 whatever the method.  A request that
    passes authentication does reach that call (in part_000 when the proxy
    list is not empty). *)
Theorem default_port_per_handler :
  forall pf request env,
    url_port (url request) = [] ->
    (forall px h q,
       In (EvCall px h q) (trace (snd (Index.fetch pf request env boot))) ->
       q = if str_eqb (method request) (lit "CONNECT") then 443 else 80)
    /\ (forall px h q,
          In (EvCall px h q) (trace (snd (Part000.fetch pf request env boot))) ->
          q = 443)
    /\ (forall ps,
          accepted_by_store (proxy_authorization request) (USERS_JSON env) ->
          PROXIES_JSON env = Wellformed (JArray ps) ->
          In (EvCall (nth_error ps (random_index pf (List.length ps)))
                (url_hostname (url request))
                (if str_eqb (method request) (lit "CONNECT") then 443 else 80))
             (trace (snd (Index.fetch pf request env boot)))
          /\ (ps <> [] ->
              In (EvCall (nth_error ps (random_index pf (List.length ps)))
                    (url_hostname (url request)) 443)
                 (trace (snd (Part000.fetch pf request env boot))))).
Proof.
  intros pf request env Hport.
  assert (D : forall d, parseInt_or (url_port (url request)) d = d)
    by (intros d; rewrite Hport; reflexivity).
  split; [|split].
  - intros px h q H. apply index_call_arguments in H as [_ ->]. apply D.
  - intros px h q H. apply part000_call_arguments in H as [_ ->]. apply D.
  - intros ps A Hp. split.
    + rewrite <- (D (if str_eqb (method request) (lit "CONNECT")
                     then 443 else 80)).
      exact (index_call_happens pf request env ps A Hp).
    + intros Hne. rewrite <- (D 443).
      exact (part000_call_happens pf request env ps A Hp Hne).
Qed.

Lemma default_port_per_handler_witness :
  url_port (url (inbound (Some (lit "Basic YTpi")) (lit "GET") [])) = []
  /\ In (EvCall (Some proxy1) (lit "destination") 80)
        (trace (snd (Index.fetch (mock cooperative)
                       (inbound (Some (lit "Basic YTpi")) (lit "GET") [])
                       (config (Wellformed (JArray [proxy1]))) boot)))
  /\ 80 = (if str_eqb (method (inbound (Some (lit "Basic YTpi")) (lit "GET") []))
                (lit "CONNECT") then 443 else 80)
  /\ In (EvCall (Some proxy1) (lit "destination") 443)
        (trace (snd (Part000.fetch (mock cooperative)
                       (inbound (Some (lit "Basic YTpi")) (lit "GET") [])
                       (config (Wellformed (JArray [proxy1]))) boot)))
  /\ 443 = 443.
Proof.
  assert (H1 : In (EvCall (Some proxy1) (lit "destination") 80)
        (trace (snd (Index.fetch (mock cooperative)
                       (inbound (Some (lit "Basic YTpi")) (lit "GET") [])
                       (config (Wellformed (JArray [proxy1]))) boot))))
    by find_event.
  assert (H2 : In (EvCall (Some proxy1) (lit "destination") 443)
        (trace (snd (Part000.fetch (mock cooperative)
                       (inbound (Some (lit "Basic YTpi")) (lit "GET") [])
                       (config (Wellformed (JArray [proxy1]))) boot))))
    by find_event.
  split; [reflexivity|]. split; [exact H1|].
  split.
  - exact (proj1 (default_port_per_handler (mock cooperative)
                    (inbound (Some (lit "Basic YTpi")) (lit "GET") [])
                    (config (Wellformed (JArray [proxy1]))) eq_refl)
             (Some proxy1) (lit "destination") 80 H1).
  - split; [exact H2|].
    exact (proj1 (proj2 (default_port_per_handler (mock cooperative)
                    (inbound (Some (lit "Basic YTpi")) (lit "GET") [])
                    (config (Wellformed (JArray [proxy1]))) eq_refl))
             (Some proxy1) (lit "destination") 443 H2).
Defined.






(* ===================================================================== *)
(** ** Further properties of the handshake *)
(* ===================================================================== *)

Ltac valid_tac :=
  solve
    [ eexists; reflexivity
    | lia
    | discriminate
    | match goal with
      | H : valid_reply _ _ _ |- _ => destruct H as [? H]; discriminate H
      end
    | match goal with
      | H : valid_reply ?a ?b (Chunk ?v), E : refused (Some ?v) ?a ?b = true |- _ =>
          apply refused_true in E; contradiction
      end
    | match goal with
      | E : refused (Some ?v) ?a ?b = true |- ~ valid_reply ?a ?b (Chunk ?v) =>
          apply refused_true; exact E
      end
    | intros [? H]; discriminate H ].

(** Whatever the server does, an operation writes the greeting, then the
    authentication packet, then the connect request, and stops at the first
    reply that does not pass: the credentials leave only after the server
    chose method 02, the target only after it accepted the credentials. *)
Theorem writes_stop_at_first_failure :
  forall op, In op connect_ops ->
  forall pf p targetHost targetPort rt,
    let script := peer pf (proxy_host p) (proxy_port p) in
    exists effects n,
      trace (snd (op pf (Some p) targetHost targetPort rt)) = trace rt ++ effects
      /\ writes effects =
           firstn n [greeting; authPacket p; connectPacket targetHost targetPort]
      /\ (1 <= n <= 3)%nat
      /\ ((2 <= n)%nat <-> valid_reply 0x05 0x02 (reply script 0))
      /\ (n = 3%nat <->
          valid_reply 0x05 0x02 (reply script 0)
          /\ valid_reply 0x01 0x00 (reply script 1)).
Proof.
  intros op Hop pf p targetHost targetPort rt script.
  two_ops Hop.
  all: run_handshake; fold script; clearbody script.
  all: generalize (connectPacket targetHost targetPort); intros packet.
  all: generalize (authPacket p); intros auth.
  all: generalize greeting; intros hello.
  all: repeat (case_reply; cbn [reply nth fst snd] in * ).
  all: cbn [snd trace]; rewrite <- ?app_assoc; cbn [app].
  all: eexists; first
         [ exists 3%nat; split; [reflexivity|]; split; [reflexivity|];
           split; [lia|]; split; split; intros; repeat split; valid_tac
         | exists 2%nat; split; [reflexivity|]; split; [reflexivity|];
           split; [lia|]; split; split; intros;
           try match goal with H : _ /\ _ |- _ => destruct H end;
           repeat split; valid_tac
         | exists 1%nat; split; [reflexivity|]; split; [reflexivity|];
           split; [lia|]; split; split; intros;
           try match goal with H : _ /\ _ |- _ => destruct H end;
           repeat split; valid_tac ].
Qed.

Lemma writes_stop_at_first_failure_witness :
  In Index.socks5_connect connect_ops
  /\ exists effects n,
       trace (snd (Index.socks5_connect (mock rejecting_greeting) (Some proxy1)
                     (lit "example.com") 443 boot)) = trace boot ++ effects
       /\ writes effects =
            firstn n [greeting; authPacket proxy1;
                      connectPacket (lit "example.com") 443]
       /\ (1 <= n <= 3)%nat
       /\ ((2 <= n)%nat <->
           valid_reply 0x05 0x02
             (reply (peer (mock rejecting_greeting) (proxy_host proxy1)
                       (proxy_port proxy1)) 0))
       /\ (n = 3%nat <->
           valid_reply 0x05 0x02
             (reply (peer (mock rejecting_greeting) (proxy_host proxy1)
                       (proxy_port proxy1)) 0)
           /\ valid_reply 0x01 0x00
                (reply (peer (mock rejecting_greeting) (proxy_host proxy1)
                          (proxy_port proxy1)) 1)).
Proof.
  split; [left; reflexivity|].
  exact (writes_stop_at_first_failure Index.socks5_connect (or_introl eq_refl)
           (mock rejecting_greeting) proxy1 (lit "example.com") 443 boot).
Defined.

(** The socket is closed at most once, as the last thing an operation
    does, and only on the way to an error: a socket that is returned has not
    been closed. *)
Theorem close_is_last_and_only_on_error :
  forall op, In op connect_ops ->
  forall pf proxy targetHost targetPort rt,
    exists effects,
      trace (snd (op pf proxy targetHost targetPort rt)) = trace rt ++ effects
      /\ (In EvClose effects ->
          (exists message,
             fst (op pf proxy targetHost targetPort rt) = Throw message)
          /\ exists before,
               effects = before ++ [EvClose] /\ ~ In EvClose before).
Proof.
  intros op Hop pf proxy targetHost targetPort rt.
  two_ops Hop.
  all: destruct proxy as [p|]; run_handshake.
  all: try (generalize (peer pf (proxy_host p) (proxy_port p)); intros script).
  all: try (generalize (connectPacket targetHost targetPort); intros packet).
  all: try (generalize (authPacket p); intros auth).
  all: generalize greeting; intros hello.
  all: repeat (case_reply; cbn [fst snd] in * ).
  all: cbn [fst snd trace]; rewrite <- ?app_assoc; cbn [app].
  all: eexists; split; [reflexivity|].
  all: cbn [In]; intros H.
  all: try (exfalso;
            repeat match goal with
              | H : _ \/ _ |- _ => destruct H as [H|H]
              end; solve [discriminate | contradiction]).
  all: split; [eexists; reflexivity|].
  all: eexists; split;
         [repeat first [exact (eq_refl : _ = [] ++ _) | apply cons_app_tail]|].
  all: cbn [In]; intuition discriminate.
Qed.

Lemma close_is_last_and_only_on_error_witness :
  In Part000.socks5Connect connect_ops
  /\ exists effects,
       trace (snd (Part000.socks5Connect (mock rejecting_greeting) (Some proxy1)
                     (lit "example.com") 443 boot)) = trace boot ++ effects
       /\ (In EvClose effects ->
           (exists message,
              fst (Part000.socks5Connect (mock rejecting_greeting) (Some proxy1)
                     (lit "example.com") 443 boot) = Throw message)
           /\ exists before,
                effects = before ++ [EvClose] /\ ~ In EvClose before).
Proof.
  split; [right; left; reflexivity|].
  exact (close_is_last_and_only_on_error Part000.socks5Connect
           (or_intror (or_introl eq_refl))
           (mock rejecting_greeting) (Some proxy1) (lit "example.com") 443 boot).
Defined.

(** A read that rejects (the transport failed) is not caught: the
    operation throws the reason of the rejection as it is, and the socket is
    left open: no close is performed. *)
Theorem rejected_read_leaves_socket_open :
  forall op, In op connect_ops ->
  forall pf p targetHost targetPort rt k reason,
    let script := peer pf (proxy_host p) (proxy_port p) in
    (k < 3)%nat ->
    (forall j, (j < k)%nat ->
       valid_reply (fst (expected j)) (snd (expected j)) (reply script j)) ->
    reply script k = Rejected reason ->
    exists before,
      fst (op pf (Some p) targetHost targetPort rt) = Throw reason
      /\ trace (snd (op pf (Some p) targetHost targetPort rt)) =
           trace rt ++ before ++ [EvRead (Rejected reason)]
      /\ ~ In EvClose before.
Proof.
  intros op Hop pf p targetHost targetPort rt k reason script Hk Hprev Hrej.
  two_ops Hop.
  all: run_handshake; fold script; fold script in Hprev, Hrej; clearbody script.
  all: destruct k as [|[|[|k]]]; [| | |lia].
  all: try pose proof (Hprev 0%nat ltac:(lia)) as H0.
  all: try pose proof (Hprev 1%nat ltac:(lia)) as H1.
  all: clear Hprev Hk; cbn [expected fst snd] in *.
  all: repeat (case_reply; cbn [reply nth fst snd] in *;
               try discriminate Hrej; try absurd_reply).
  all: injection Hrej as ->.
  all: rewrite <- ?app_assoc; cbn [app].
  all: eexists; split; [reflexivity|split].
  all: try (apply (f_equal (app (trace rt)));
            repeat first [exact (eq_refl : _ = [] ++ _) | apply cons_app_tail]).
  all: cbn [In]; intuition discriminate.
Qed.

Lemma rejected_read_leaves_socket_open_witness :
  In Index.socks5_connect connect_ops
  /\ (0 < 3)%nat
  /\ (forall j, (j < 0)%nat ->
        valid_reply (fst (expected j)) (snd (expected j))
          (reply (peer (mock broken) (proxy_host proxy1) (proxy_port proxy1)) j))
  /\ reply (peer (mock broken) (proxy_host proxy1) (proxy_port proxy1)) 0 =
       Rejected (lit "Network connection lost.")
  /\ exists before,
       fst (Index.socks5_connect (mock broken) (Some proxy1)
              (lit "example.com") 443 boot) =
         Throw (lit "Network connection lost.")
       /\ trace (snd (Index.socks5_connect (mock broken) (Some proxy1)
                        (lit "example.com") 443 boot)) =
            trace boot ++ before
            ++ [EvRead (Rejected (lit "Network connection lost."))]
       /\ ~ In EvClose before.
Proof.
  assert (Hk : (0 < 3)%nat) by lia.
  assert (Hprev : forall j, (j < 0)%nat ->
            valid_reply (fst (expected j)) (snd (expected j))
              (reply (peer (mock broken) (proxy_host proxy1)
                        (proxy_port proxy1)) j))
    by (intros j Hj; lia).
  split; [left; reflexivity|]. split; [exact Hk|]. split; [exact Hprev|].
  split; [reflexivity|].
  exact (rejected_read_leaves_socket_open Index.socks5_connect
           (or_introl eq_refl) (mock broken) proxy1 (lit "example.com") 443
           boot 0%nat (lit "Network connection lost.") Hk Hprev eq_refl).
Defined.

Lemma failed_step_text :
  forall pf p targetHost targetPort rt k,
    let script := peer pf (proxy_host p) (proxy_port p) in
    fails_validation_at script k ->
    fst (Index.socks5_connect pf (Some p) targetHost targetPort rt) =
      Throw (index_error_text k script)
    /\ fst (Part000.socks5Connect pf (Some p) targetHost targetPort rt) =
         Throw (part000_error_text k script).
Proof.
  intros pf p targetHost targetPort rt k script (Hk & Hprev & Hbad & Hrej).
  split.
  all: run_handshake; fold script; fold script in Hprev, Hbad, Hrej;
    clearbody script.
  all: destruct k as [|[|[|k]]]; [| | |lia].
  all: try pose proof (Hprev 0%nat ltac:(lia)) as H0.
  all: try pose proof (Hprev 1%nat ltac:(lia)) as H1.
  all: clear Hprev Hk; cbn [expected fst snd] in *.
  all: repeat (case_reply; cbn [reply nth fst snd] in * ); try absurd_reply.
  all: unfold index_error_text, part000_error_text; cbn [reply nth].
  all: try reflexivity.
  all: unfold Index.msg_connect, Part000.msg_connect, error_code, status_text.
  all: try reflexivity.
  all: match goal with
       | |- context [nth_error ?v 1] => destruct v as [|? [|? ?]]
       end; reflexivity.
Qed.

(** The error a failed step throws names the step, and for the connect
    request carries the proxy's reply code in decimal ("undefined" when the
    reply has fewer than two bytes, "N/A" when there is no reply). *)
Theorem error_text_names_the_step :
  forall pf p targetHost targetPort rt k,
    fails_validation_at (peer pf (proxy_host p) (proxy_port p)) k ->
    fst (Index.socks5_connect pf (Some p) targetHost targetPort rt) =
      Throw (index_error_text k (peer pf (proxy_host p) (proxy_port p)))
    /\ fst (Part000.socks5Connect pf (Some p) targetHost targetPort rt) =
         Throw (part000_error_text k (peer pf (proxy_host p) (proxy_port p))).
Proof.
  intros pf p targetHost targetPort rt k Hf.
  exact (failed_step_text pf p targetHost targetPort rt k Hf).
Qed.

Lemma error_text_names_the_step_witness :
  fails_validation_at
    (peer (mock refusing) (proxy_host proxy1) (proxy_port proxy1)) 2
  /\ fst (Index.socks5_connect (mock refusing) (Some proxy1)
            (lit "example.com") 443 boot) =
       Throw (lit "SOCKS5 connection failed. Error code: 5").
Proof.
  assert (H : fails_validation_at
                (peer (mock refusing) (proxy_host proxy1) (proxy_port proxy1)) 2).
  { split; [lia|]. split.
    - intros [|[|j]] Hj; [eexists; reflexivity | eexists; reflexivity | lia].
    - split; [intros [extra E]; discriminate E | intros reason; discriminate]. }
  split; [exact H|].
  exact (proj1 (error_text_names_the_step (mock refusing) proxy1
                  (lit "example.com") 443 boot 2%nat H)).
Defined.

(* ===================================================================== *)
(** ** Further properties of the packets *)
(* ===================================================================== *)

Lemma encode_ascii_identity (s : jsstring) : ascii_only s -> encode s = s.
Proof.
  induction 1 as [|c t Hc _ IH]; [reflexivity|].
  rewrite encode_cons. destruct (Z.ltb_spec c 0x80); [|lia].
  rewrite IH. reflexivity.
Qed.

Lemma ascii_only_wf (s : jsstring) : ascii_only s -> wf_jsstring s.
Proof.
  unfold ascii_only, wf_jsstring. apply Forall_impl. intros u Hu. lia.
Qed.

(** For an ASCII host name of at most 255 characters and a port in
    0..65535, the connect request is 05 01 00 03, the length of the name, the
    name, and the port as two bytes, high byte first: the port is recovered
    as 256 * high + low, and the packet is 7 bytes longer than the name. *)
Theorem connect_request_layout :
  forall targetHost targetPort,
    ascii_only targetHost ->
    (List.length targetHost <= 255)%nat ->
    0 <= targetPort < 65536 ->
    exists high low,
      connectPacket targetHost targetPort =
        [0x05; 0x01; 0x00; 0x03; Z.of_nat (List.length targetHost)]
        ++ targetHost ++ [high; low]
      /\ is_byte high /\ is_byte low
      /\ 256 * high + low = targetPort
      /\ List.length (connectPacket targetHost targetPort) =
           (7 + List.length targetHost)%nat.
Proof.
  intros targetHost targetPort Ha Hl Hp.
  exists (targetPort / 256), (targetPort mod 256).
  assert (E : connectPacket targetHost targetPort =
    [0x05; 0x01; 0x00; 0x03; Z.of_nat (List.length targetHost)]
    ++ targetHost ++ [targetPort / 256; targetPort mod 256]).
  { rewrite (connectPacket_layout _ _ (ascii_only_wf _ Ha)).
    rewrite (encode_ascii_identity _ Ha). unfold len.
    rewrite (Z.mod_small (Z.of_nat (List.length targetHost))) by lia.
    rewrite (Z.mod_small (targetPort / 256)); [reflexivity|].
    split; [apply Z.div_pos; lia | apply Z.div_lt_upper_bound; lia]. }
  split; [exact E|].
  split; [split; [apply Z.div_pos; lia | apply Z.div_lt_upper_bound; lia]|].
  split; [apply Z.mod_pos_bound; lia|].
  split; [symmetry; apply Z.div_mod; lia|].
  rewrite E. cbn [List.length app]. rewrite length_app. cbn [List.length]. lia.
Qed.

Lemma connect_request_layout_witness :
  ascii_only (lit "destination")
  /\ (List.length (lit "destination") <= 255)%nat
  /\ 0 <= 8443 < 65536
  /\ exists high low,
       connectPacket (lit "destination") 8443 =
         [0x05; 0x01; 0x00; 0x03; Z.of_nat (List.length (lit "destination"))]
         ++ lit "destination" ++ [high; low]
       /\ is_byte high /\ is_byte low
       /\ 256 * high + low = 8443
       /\ List.length (connectPacket (lit "destination") 8443) =
            (7 + List.length (lit "destination"))%nat.
Proof.
  assert (Ha : ascii_only (lit "destination"))
    by (repeat first [apply Forall_nil | apply Forall_cons]; simpl; lia).
  assert (Hl : (List.length (lit "destination") <= 255)%nat) by (simpl; lia).
  assert (Hp : 0 <= 8443 < 65536) by lia.
  split; [exact Ha|]. split; [exact Hl|]. split; [exact Hp|].
  exact (connect_request_layout (lit "destination") 8443 Ha Hl Hp).
Defined.

(** The length prefixes of the authentication packet are one byte each
    and are not checked: a user or password longer than 255 bytes is sent
    whole, behind its length modulo 256. *)
Theorem auth_length_prefix_wraps :
  forall p,
    wf_jsstring (proxy_user p) -> wf_jsstring (proxy_pass p) ->
    authPacket p =
      [0x01; len (encode (proxy_user p)) mod 256] ++ encode (proxy_user p)
      ++ [len (encode (proxy_pass p)) mod 256] ++ encode (proxy_pass p)
    /\ List.length (authPacket p) =
         (3 + List.length (encode (proxy_user p))
            + List.length (encode (proxy_pass p)))%nat.
Proof.
  intros p Wu Wp.
  assert (E : authPacket p =
    [0x01; len (encode (proxy_user p)) mod 256] ++ encode (proxy_user p)
    ++ [len (encode (proxy_pass p)) mod 256] ++ encode (proxy_pass p)).
  { unfold authPacket. unfold Uint8Array at 1. rewrite !map_app.
    fold (Uint8Array (encode (proxy_user p))).
    fold (Uint8Array (encode (proxy_pass p))).
    rewrite (Uint8Array_bytes (encode (proxy_user p)))
      by (apply encode_bytes; assumption).
    rewrite (Uint8Array_bytes (encode (proxy_pass p)))
      by (apply encode_bytes; assumption).
    reflexivity. }
  split; [exact E|].
  rewrite E. cbn [app List.length]. rewrite !length_app. cbn [List.length]. lia.
Qed.

Lemma auth_length_prefix_wraps_witness :
  wf_jsstring (proxy_user long_user_proxy)
  /\ wf_jsstring (proxy_pass long_user_proxy)
  /\ authPacket long_user_proxy =
       [0x01; len (encode (proxy_user long_user_proxy)) mod 256]
       ++ encode (proxy_user long_user_proxy)
       ++ [len (encode (proxy_pass long_user_proxy)) mod 256]
       ++ encode (proxy_pass long_user_proxy)
  /\ len (encode (proxy_user long_user_proxy)) mod 256 = 0.
Proof.
  assert (Wu : wf_jsstring (proxy_user long_user_proxy)).
  { apply Forall_forall. intros x Hx. apply repeat_spec in Hx. subst x. lia. }
  assert (Wp : wf_jsstring (proxy_pass long_user_proxy))
    by (repeat first [apply Forall_nil | apply Forall_cons]; simpl; lia).
  split; [exact Wu|]. split; [exact Wp|].
  split; [exact (proj1 (auth_length_prefix_wraps long_user_proxy Wu Wp))|].
  vm_compute. reflexivity.
Defined.

(* ===================================================================== *)
(** ** Further properties of the handlers *)
(* ===================================================================== *)

(** The two connect operations do the same things and differ only in the
    wording of two errors. *)
Lemma connect_ops_agree (pf : Platform) (proxy : option ProxyEndpoint)
    (targetHost : jsstring) (targetPort : Z) (rt : Runtime) :
  snd (Index.socks5_connect pf proxy targetHost targetPort rt) =
    snd (Part000.socks5Connect pf proxy targetHost targetPort rt)
  /\ same_outcome
       (fst (Index.socks5_connect pf proxy targetHost targetPort rt))
       (fst (Part000.socks5Connect pf proxy targetHost targetPort rt)).
Proof.
  destruct proxy as [p|]; run_handshake.
  all: try (generalize (peer pf (proxy_host p) (proxy_port p)); intros script).
  all: repeat (case_reply; cbn [fst snd]).
  all: cbn [fst snd same_outcome]; split; exact I || reflexivity.
Qed.

(** Past the gate and the draw, a handler is the connect operation and
    one wrapper around its outcome. *)
Lemma index_after_gate (pf : Platform) (request : Request) (env : Env)
    (ps : list ProxyEndpoint) :
  accepted_by_store (proxy_authorization request) (USERS_JSON env) ->
  PROXIES_JSON env = Wellformed (JArray ps) ->
  Index.fetch pf request env boot =
    (Normal
       ((if str_eqb (method request) (lit "CONNECT")
         then tunnel_reply (has_body request) else forward_reply)
          (fst (Index.socks5_connect pf
                  (nth_error ps (random_index pf (List.length ps)))
                  (url_hostname (url request))
                  (parseInt_or (url_port (url request))
                     (if str_eqb (method request) (lit "CONNECT")
                      then 443 else 80))
                  drawn))),
     snd (Index.socks5_connect pf
            (nth_error ps (random_index pf (List.length ps)))
            (url_hostname (url request))
            (parseInt_or (url_port (url request))
               (if str_eqb (method request) (lit "CONNECT") then 443 else 80))
            drawn)).
Proof.
  intros A Hp. apply gate_open_iff in A. revert A. unfold gate, drawn.
  run_fetch. rewrite Hp. run_fetch.
  repeat gate_case; try discriminate.
  all: intros _; call_case; reflexivity.
Qed.

Lemma part000_after_gate (pf : Platform) (request : Request) (env : Env)
    (ps : list ProxyEndpoint) :
  accepted_by_store (proxy_authorization request) (USERS_JSON env) ->
  PROXIES_JSON env = Wellformed (JArray ps) ->
  ps <> [] ->
  Part000.fetch pf request env boot =
    (Normal
       (tunnel_reply (has_body request)
          (fst (Part000.socks5Connect pf
                  (nth_error ps (random_index pf (List.length ps)))
                  (url_hostname (url request))
                  (parseInt_or (url_port (url request)) 443)
                  drawn))),
     snd (Part000.socks5Connect pf
            (nth_error ps (random_index pf (List.length ps)))
            (url_hostname (url request))
            (parseInt_or (url_port (url request)) 443)
            drawn)).
Proof.
  intros A Hp Hne. apply gate_open_iff in A. revert A. unfold gate, drawn.
  run_fetch. rewrite Hp. run_fetch.
  repeat gate_case; try discriminate; try contradiction.
  all: intros _; call_case; reflexivity.
Qed.

Lemma handshake_succeeds :
  forall op, In op connect_ops ->
  forall pf p targetHost targetPort rt extra1 extra2 extra3 more,
    peer pf (proxy_host p) (proxy_port p) =
      Chunk (0x05 :: 0x02 :: extra1) :: Chunk (0x01 :: 0x00 :: extra2)
      :: Chunk (0x05 :: 0x00 :: extra3) :: more ->
    op pf (Some p) targetHost targetPort rt =
      (Normal (mkSocket (proxy_host p) (proxy_port p)),
       {| trace := trace rt ++
            [EvCall (Some p) targetHost targetPort;
             EvOpen (proxy_host p) (proxy_port p);
             EvWrite greeting; EvRead (Chunk (0x05 :: 0x02 :: extra1));
             EvWrite (authPacket p); EvRead (Chunk (0x01 :: 0x00 :: extra2));
             EvWrite (connectPacket targetHost targetPort);
             EvRead (Chunk (0x05 :: 0x00 :: extra3))];
          inbox := more |}).
Proof.
  intros op Hop pf p targetHost targetPort rt extra1 extra2 extra3 more Hs.
  two_ops Hop.
  all: run_handshake; rewrite Hs.
  all: generalize (connectPacket targetHost targetPort); intros packet.
  all: generalize (authPacket p); intros auth.
  all: generalize greeting; intros hello.
  all: repeat case_reply.
  all: rewrite <- ?app_assoc; reflexivity.
Qed.

Lemma failed_step_throws_after_close :
  forall op, In op connect_ops ->
  forall pf p targetHost targetPort rt k,
    fails_validation_at (peer pf (proxy_host p) (proxy_port p)) k ->
    exists message before,
      fst (op pf (Some p) targetHost targetPort rt) = Throw message
      /\ trace (snd (op pf (Some p) targetHost targetPort rt)) =
           trace rt ++ before ++ [EvClose].
Proof.
  intros op Hop pf p targetHost targetPort rt k (Hk & Hprev & Hbad & Hrej).
  two_ops Hop.
  all: run_handshake; name_script pf p script Hs; clear Hs.
  all: destruct k as [|[|[|k]]]; [| | |lia].
  all: try pose proof (Hprev 0%nat ltac:(lia)) as H0.
  all: try pose proof (Hprev 1%nat ltac:(lia)) as H1.
  all: clear Hprev Hk; cbn [expected fst snd] in *.
  all: repeat (case_reply; cbn [reply nth fst snd] in * ); try absurd_reply.
  all: rewrite <- ?app_assoc; cbn [app].
  all: do 2 eexists; split; [reflexivity|].
  all: apply (f_equal (app (trace rt)));
    repeat first [exact (eq_refl : _ = [] ++ _) | apply cons_app_tail].
Qed.

(** Past authentication and the draw, what a handler answers is
    decided by the outcome of the connect operation and, in the tunnel
    branch, by whether the request has a body.  When the operation throws:
    502 with the text of the error, whatever the error.  When it returns a
    socket: in the tunnel branch 200 "Connection established" over the socket
    if [request.body] is a stream, and 502 with the text of the TypeError if
    it is null; in src/src/index.js for a method other than CONNECT, the
    platform fetch over the socket.  The effects of the request are the draw
    followed by those of the operation. *)
Theorem connect_outcome_decides_the_response :
  forall pf request env ps,
    accepted_by_store (proxy_authorization request) (USERS_JSON env) ->
    PROXIES_JSON env = Wellformed (JArray ps) ->
    let chosen := nth_error ps (random_index pf (List.length ps)) in
    let host := url_hostname (url request) in
    let tunnel := str_eqb (method request) (lit "CONNECT") in
    let port := parseInt_or (url_port (url request)) in
    Index.fetch pf request env boot =
      (Normal
         ((if tunnel then tunnel_reply (has_body request) else forward_reply)
            (fst (Index.socks5_connect pf chosen host
                    (port (if tunnel then 443 else 80)) drawn))),
       snd (Index.socks5_connect pf chosen host
              (port (if tunnel then 443 else 80)) drawn))
    /\ (ps <> [] ->
        Part000.fetch pf request env boot =
          (Normal
             (tunnel_reply (has_body request)
                (fst (Part000.socks5Connect pf chosen host (port 443) drawn))),
           snd (Part000.socks5Connect pf chosen host (port 443) drawn))).
Proof.
  intros pf request env ps A Hp chosen host tunnel port. split.
  - exact (index_after_gate pf request env ps A Hp).
  - exact (part000_after_gate pf request env ps A Hp).
Qed.

(** End to end: a request with accepted credentials, a proxy drawn
    from the list and a server that answers 05 02, 01 00, 05 00.  If
    [request.body] is a stream, the tunnel branch answers 200 "Connection
    established" with the body streamed from the socket to that proxy.  If
    [request.body] is null (a request without a body: in unnamed/part_000
    any such request, in src/src/index.js a CONNECT), the attempt to pipe it
    throws after the handshake and the answer is 502 with the text of that
    TypeError; the socket has been opened, the three packets written, and
    nothing closes it.  In src/src/index.js a method other than CONNECT gets
    the platform fetch over the socket, body or not.  In every case one
    socket is opened and exactly the three packets are written. *)
Theorem accepted_request_gets_a_tunnel :
  forall pf request env ps p extra1 extra2 extra3 more,
    accepted_by_store (proxy_authorization request) (USERS_JSON env) ->
    PROXIES_JSON env = Wellformed (JArray ps) ->
    nth_error ps (random_index pf (List.length ps)) = Some p ->
    peer pf (proxy_host p) (proxy_port p) =
      Chunk (0x05 :: 0x02 :: extra1) :: Chunk (0x01 :: 0x00 :: extra2)
      :: Chunk (0x05 :: 0x00 :: extra3) :: more ->
    let socket := mkSocket (proxy_host p) (proxy_port p) in
    let host := url_hostname (url request) in
    let after port :=
      {| trace := tunnel_effects p host port extra1 extra2 extra3;
         inbox := more |} in
    let tunnel :=
      if has_body request then Respond (established socket)
      else Respond (plain msg_null_body 502) in
    Part000.fetch pf request env boot =
      (Normal tunnel, after (parseInt_or (url_port (url request)) 443))
    /\ Index.fetch pf request env boot =
         (if str_eqb (method request) (lit "CONNECT")
          then (Normal tunnel, after (parseInt_or (url_port (url request)) 443))
          else (Normal (Forwarded socket),
                after (parseInt_or (url_port (url request)) 80)))
    /\ (forall port,
          count is_open (tunnel_effects p host port extra1 extra2 extra3) = 1%nat
          /\ count is_close (tunnel_effects p host port extra1 extra2 extra3)
             = 0%nat
          /\ writes (tunnel_effects p host port extra1 extra2 extra3) =
               [greeting; authPacket p; connectPacket host port]).
Proof.
  intros pf request env ps p extra1 extra2 extra3 more A Hp Hc Hs
    socket host after tunnel.
  assert (Hne : ps <> []).
  { intros ->. destruct (random_index pf (List.length (@nil ProxyEndpoint)));
      discriminate Hc. }
  split; [|split].
  - rewrite (part000_after_gate pf request env ps A Hp Hne), Hc.
    rewrite (handshake_succeeds _ (or_intror (or_introl eq_refl))
               pf p _ _ drawn extra1 extra2 extra3 more Hs).
    reflexivity.
  - rewrite (index_after_gate pf request env ps A Hp), Hc.
    rewrite (handshake_succeeds _ (or_introl eq_refl)
               pf p _ _ drawn extra1 extra2 extra3 more Hs).
    destruct (str_eqb (method request) (lit "CONNECT")); reflexivity.
  - intros port. repeat split.
Qed.

(** End to end: when a handshake step fails validation, the request is
    answered 502 with the text of that failure as its body, and the socket
    has been closed by then. *)
Theorem failed_handshake_is_a_502 :
  forall pf request env ps p k,
    accepted_by_store (proxy_authorization request) (USERS_JSON env) ->
    PROXIES_JSON env = Wellformed (JArray ps) ->
    nth_error ps (random_index pf (List.length ps)) = Some p ->
    fails_validation_at (peer pf (proxy_host p) (proxy_port p)) k ->
    let script := peer pf (proxy_host p) (proxy_port p) in
    (fst (Index.fetch pf request env boot) =
       Normal (Respond (plain (index_error_text k script) 502))
     /\ exists before,
          trace (snd (Index.fetch pf request env boot)) =
            EvRandom :: before ++ [EvClose])
    /\ (fst (Part000.fetch pf request env boot) =
          Normal (Respond (plain (part000_error_text k script) 502))
        /\ exists before,
             trace (snd (Part000.fetch pf request env boot)) =
               EvRandom :: before ++ [EvClose]).
Proof.
  intros pf request env ps p k A Hp Hc Hf script.
  assert (Hne : ps <> []).
  { intros ->. destruct (random_index pf (List.length (@nil ProxyEndpoint)));
      discriminate Hc. }
  split.
  - rewrite (index_after_gate pf request env ps A Hp), Hc. cbn [fst snd].
    rewrite (proj1 (failed_step_text pf p _ _ drawn k Hf)).
    destruct (failed_step_throws_after_close _ (or_introl eq_refl) pf p
                (url_hostname (url request))
                (parseInt_or (url_port (url request))
                   (if str_eqb (method request) (lit "CONNECT")
                    then 443 else 80)) drawn k Hf)
      as (message & before & _ & Ht).
    split; [destruct (str_eqb (method request) (lit "CONNECT")); reflexivity|].
    exists before. exact Ht.
  - rewrite (part000_after_gate pf request env ps A Hp Hne), Hc. cbn [fst snd].
    rewrite (proj2 (failed_step_text pf p _ _ drawn k Hf)).
    destruct (failed_step_throws_after_close _ (or_intror (or_introl eq_refl))
                pf p (url_hostname (url request))
                (parseInt_or (url_port (url request)) 443) drawn k Hf)
      as (message & before & _ & Ht).
    split; [reflexivity|]. exists before. exact Ht.
Qed.

Lemma connect_outcome_decides_the_response_witness :
  accepted_by_store
    (proxy_authorization (inbound (Some (lit "Basic YTpi")) (lit "GET") []))
    (USERS_JSON (config (Wellformed (JArray [proxy1]))))
  /\ PROXIES_JSON (config (Wellformed (JArray [proxy1]))) =
       Wellformed (JArray [proxy1])
  /\ Index.fetch (mock broken) (inbound (Some (lit "Basic YTpi")) (lit "GET") [])
       (config (Wellformed (JArray [proxy1]))) boot =
     (Normal (Respond (plain (lit "Network connection lost.") 502)),
      {| trace := [EvRandom; EvCall (Some proxy1) (lit "destination") 80;
                   EvOpen (lit "10.0.0.1") 1080; EvWrite greeting;
                   EvRead (Rejected (lit "Network connection lost."))];
         inbox := [] |}).
Proof.
  split; [apply a_b_accepted|]. split; [reflexivity|].
  rewrite (proj1 (connect_outcome_decides_the_response (mock broken)
                    (inbound (Some (lit "Basic YTpi")) (lit "GET") [])
                    (config (Wellformed (JArray [proxy1]))) [proxy1]
                    (a_b_accepted _ _ _) eq_refl)).
  vm_compute. reflexivity.
Defined.

Lemma accepted_request_gets_a_tunnel_witness :
  accepted_by_store
    (proxy_authorization (inbound (Some (lit "Basic YTpi")) (lit "CONNECT") []))
    (USERS_JSON (config (Wellformed (JArray [proxy1]))))
  /\ nth_error [proxy1] (random_index (mock cooperative) 1) = Some proxy1
  /\ peer (mock cooperative) (proxy_host proxy1) (proxy_port proxy1) =
       Chunk [0x05; 0x02] :: Chunk [0x01; 0x00]
       :: Chunk (0x05 :: 0x00 :: [0; 1; 0; 0; 0; 0; 0; 0]) :: []
  /\ fst (Part000.fetch (mock cooperative)
            (inbound (Some (lit "Basic YTpi")) (lit "CONNECT") [])
            (config (Wellformed (JArray [proxy1]))) boot) =
       Normal (Respond (established (mkSocket (lit "10.0.0.1") 1080)))
  /\ has_body (inbound (Some (lit "Basic YTpi")) (lit "GET") []) = false
  /\ fst (Part000.fetch (mock cooperative)
            (inbound (Some (lit "Basic YTpi")) (lit "GET") [])
            (config (Wellformed (JArray [proxy1]))) boot) =
       Normal (Respond (plain msg_null_body 502)).
Proof.
  split; [apply a_b_accepted|]. split; [reflexivity|]. split; [reflexivity|].
  split; [|split; [reflexivity|]].
  - rewrite (proj1 (accepted_request_gets_a_tunnel (mock cooperative)
                      (inbound (Some (lit "Basic YTpi")) (lit "CONNECT") [])
                      (config (Wellformed (JArray [proxy1]))) [proxy1] proxy1
                      [] [] [0; 1; 0; 0; 0; 0; 0; 0] []
                      (a_b_accepted _ _ _) eq_refl eq_refl eq_refl)).
    reflexivity.
  - rewrite (proj1 (accepted_request_gets_a_tunnel (mock cooperative)
                      (inbound (Some (lit "Basic YTpi")) (lit "GET") [])
                      (config (Wellformed (JArray [proxy1]))) [proxy1] proxy1
                      [] [] [0; 1; 0; 0; 0; 0; 0; 0] []
                      (a_b_accepted _ _ _) eq_refl eq_refl eq_refl)).
    reflexivity.
Defined.

Lemma failed_handshake_is_a_502_witness :
  accepted_by_store
    (proxy_authorization (inbound (Some (lit "Basic YTpi")) (lit "CONNECT") []))
    (USERS_JSON (config (Wellformed (JArray [proxy1]))))
  /\ nth_error [proxy1] (random_index (mock refusing) 1) = Some proxy1
  /\ fails_validation_at
       (peer (mock refusing) (proxy_host proxy1) (proxy_port proxy1)) 2
  /\ fst (Index.fetch (mock refusing)
            (inbound (Some (lit "Basic YTpi")) (lit "CONNECT") [])
            (config (Wellformed (JArray [proxy1]))) boot) =
       Normal (Respond
                 (plain (lit "SOCKS5 connection failed. Error code: 5") 502)).
Proof.
  assert (H : fails_validation_at
                (peer (mock refusing) (proxy_host proxy1) (proxy_port proxy1)) 2).
  { split; [lia|]. split.
    - intros [|[|j]] Hj; [eexists; reflexivity | eexists; reflexivity | lia].
    - split; [intros [extra E]; discriminate E | intros reason; discriminate]. }
  split; [apply a_b_accepted|]. split; [reflexivity|]. split; [exact H|].
  exact (proj1 (proj1 (failed_handshake_is_a_502 (mock refusing)
                  (inbound (Some (lit "Basic YTpi")) (lit "CONNECT") [])
                  (config (Wellformed (JArray [proxy1]))) [proxy1] proxy1 2%nat
                  (a_b_accepted _ _ _) eq_refl eq_refl H))).
Defined.







(** A request with no Proxy-Authorization header, or with one that does
    not start with "Basic " (the test is case-sensitive and wants the space),
    is answered at once with 407 "Proxy Authentication Required" and the
    challenge header Proxy-Authenticate: Basic realm="Secure Proxy Gateway";
    nothing else happens, and the credential store is not consulted. *)
Theorem missing_or_foreign_header_is_challenged :
  forall handler, In handler handlers ->
  forall pf request env rt,
    (proxy_authorization request = None
     \/ exists h, proxy_authorization request = Some h
                  /\ startsWith h (lit "Basic ") = false) ->
    handler pf request env rt = (Normal (Respond challenge), rt)
    /\ status challenge = 407
    /\ body challenge = BodyText (lit "Proxy Authentication Required")
    /\ headers challenge =
         [(lit "Proxy-Authenticate",
           lit "Basic realm=" ++ [34] ++ lit "Secure Proxy Gateway" ++ [34])].
Proof.
  intros handler Hh pf request env rt Hhdr.
  split; [|repeat split].
  apply (gate_answer handler Hh). unfold gate.
  destruct Hhdr as [->|(h & -> & Hs)]; [reflexivity|].
  rewrite Hs. cbn [negb]. rewrite orb_true_r. reflexivity.
Qed.

Lemma missing_or_foreign_header_is_challenged_witness :
  In Part000.fetch handlers
  /\ (proxy_authorization (inbound (Some (lit "basic YTpi")) (lit "CONNECT") [])
        = None
      \/ exists h,
           proxy_authorization
             (inbound (Some (lit "basic YTpi")) (lit "CONNECT") []) = Some h
           /\ startsWith h (lit "Basic ") = false)
  /\ Part000.fetch (mock cooperative)
       (inbound (Some (lit "basic YTpi")) (lit "CONNECT") [])
       (config (Wellformed (JArray [proxy1]))) boot =
     (Normal (Respond challenge), boot).
Proof.
  assert (H : proxy_authorization
                (inbound (Some (lit "basic YTpi")) (lit "CONNECT") []) = None
              \/ exists h,
                   proxy_authorization
                     (inbound (Some (lit "basic YTpi")) (lit "CONNECT") [])
                   = Some h
                   /\ startsWith h (lit "Basic ") = false).
  { right. exists (lit "basic YTpi"). split; reflexivity. }
  split; [right; left; reflexivity|]. split; [exact H|].
  exact (proj1 (missing_or_foreign_header_is_challenged Part000.fetch
                  (or_intror (or_introl eq_refl)) (mock cooperative)
                  (inbound (Some (lit "basic YTpi")) (lit "CONNECT") [])
                  (config (Wellformed (JArray [proxy1]))) boot H)).
Defined.

Lemma no_password_no_match (user : option jsstring) (store : list UserEntry) :
  existsb (matches user None) store = false.
Proof.
  induction store as [|e store IH]; [reflexivity|].
  cbn [existsb]. rewrite IH. unfold matches. cbn [str_eqb_undef].
  rewrite andb_false_r. reflexivity.
Qed.

(** Credentials that decode to a text without a colon give no password to
    compare ([pass] is undefined), so against a store of user/password pairs
    they are refused with 407 "Invalid Credentials", whatever the store
    holds, an entry with an empty password included. *)
Theorem credentials_without_colon_are_refused :
  forall handler, In handler handlers ->
  forall pf request env rt encoded decoded,
    proxy_authorization request = Some (lit "Basic " ++ encoded) ->
    atob encoded = Some decoded ->
    ~ In colon decoded ->
    handler pf request env rt =
      (Normal (Respond (plain (lit "Invalid Credentials") 407)), rt).
Proof.
  intros handler Hh pf request env rt encoded decoded Hhdr Ha Hc.
  apply (gate_answer handler Hh). unfold gate. rewrite Hhdr.
  destruct (basic_header encoded) as [E1 E2]. rewrite E1, E2, Ha.
  rewrite (split_no_sep colon decoded Hc). cbn [nth_error].
  destruct (USERS_JSON env) as [|[|store]]; try reflexivity.
  rewrite no_password_no_match. reflexivity.
Qed.

Lemma credentials_without_colon_are_refused_witness :
  In Index.fetch handlers
  /\ proxy_authorization (inbound (Some (lit "Basic YQ==")) (lit "CONNECT") []) =
       Some (lit "Basic " ++ lit "YQ==")
  /\ atob (lit "YQ==") = Some (lit "a")
  /\ ~ In colon (lit "a")
  /\ Index.fetch (mock cooperative)
       (inbound (Some (lit "Basic YQ==")) (lit "CONNECT") [])
       (config (Wellformed (JArray [proxy1]))) boot =
     (Normal (Respond (plain (lit "Invalid Credentials") 407)), boot).
Proof.
  assert (Ha : atob (lit "YQ==") = Some (lit "a")) by (vm_compute; reflexivity).
  assert (Hc : ~ In colon (lit "a")) by (vm_compute; intuition discriminate).
  split; [left; reflexivity|]. split; [reflexivity|].
  split; [exact Ha|]. split; [exact Hc|].
  exact (credentials_without_colon_are_refused Index.fetch (or_introl eq_refl)
           (mock cooperative)
           (inbound (Some (lit "Basic YQ==")) (lit "CONNECT") [])
           (config (Wellformed (JArray [proxy1]))) boot
           (lit "YQ==") (lit "a") eq_refl Ha Hc).
Defined.

(** A proxy list that does not parse, or that parses to null, is answered
    500 "Proxy configuration error" by both handlers; no connect operation is
    called and no socket is opened (at most the random draw has been made,
    which src/src/index.js does before it looks at the list). *)
Theorem unusable_proxy_list_is_a_500 :
  forall handler, In handler handlers ->
  forall pf request env,
    accepted_by_store (proxy_authorization request) (USERS_JSON env) ->
    (PROXIES_JSON env = Malformed \/ PROXIES_JSON env = Wellformed JNull) ->
    fst (handler pf request env boot) =
      Normal (Respond (plain (lit "Proxy configuration error") 500))
    /\ (trace (snd (handler pf request env boot)) = []
        \/ trace (snd (handler pf request env boot)) = [EvRandom]).
Proof.
  intros handler Hh pf request env A Hp.
  apply gate_open_iff in A. revert A. unfold gate.
  two_handlers Hh; run_fetch.
  all: destruct Hp as [Hp|Hp]; rewrite Hp; run_fetch.
  all: repeat gate_case; try discriminate; intros _.
  all: cbn [fst snd trace app]; split; [reflexivity|]; auto.
Qed.

Lemma unusable_proxy_list_is_a_500_witness :
  In Index.fetch handlers
  /\ accepted_by_store
       (proxy_authorization (inbound (Some (lit "Basic YTpi")) (lit "CONNECT") []))
       (USERS_JSON (config (Wellformed JNull)))
  /\ (PROXIES_JSON (config (Wellformed JNull)) = Malformed
      \/ PROXIES_JSON (config (Wellformed JNull)) = Wellformed JNull)
  /\ fst (Index.fetch (mock cooperative)
            (inbound (Some (lit "Basic YTpi")) (lit "CONNECT") [])
            (config (Wellformed JNull)) boot) =
       Normal (Respond (plain (lit "Proxy configuration error") 500)).
Proof.
  split; [left; reflexivity|]. split; [apply a_b_accepted|].
  split; [right; reflexivity|].
  exact (proj1 (unusable_proxy_list_is_a_500 Index.fetch (or_introl eq_refl)
                  (mock cooperative)
                  (inbound (Some (lit "Basic YTpi")) (lit "CONNECT") [])
                  (config (Wellformed JNull))
                  (a_b_accepted _ _ _) (or_intror eq_refl))).
Defined.

(** The handler of src/unnamed/part_000 tests the proxy list before it
    draws: an empty list is answered 500 "Proxy configuration error" with no
    effect at all. *)
Theorem part000_empty_list_is_a_500 :
  forall pf request env,
    accepted_by_store (proxy_authorization request) (USERS_JSON env) ->
    PROXIES_JSON env = Wellformed (JArray []) ->
    Part000.fetch pf request env boot =
      (Normal (Respond (plain (lit "Proxy configuration error") 500)), boot).
Proof.
  intros pf request env A Hp.
  exact (part000_empty_proxy_list pf request env A Hp).
Qed.

Lemma part000_empty_list_is_a_500_witness :
  accepted_by_store
    (proxy_authorization (inbound (Some (lit "Basic YTpi")) (lit "GET") []))
    (USERS_JSON (config (Wellformed (JArray []))))
  /\ PROXIES_JSON (config (Wellformed (JArray []))) = Wellformed (JArray [])
  /\ Part000.fetch (mock cooperative)
       (inbound (Some (lit "Basic YTpi")) (lit "GET") [])
       (config (Wellformed (JArray []))) boot =
     (Normal (Respond (plain (lit "Proxy configuration error") 500)), boot).
Proof.
  split; [apply a_b_accepted|]. split; [reflexivity|].
  exact (part000_empty_list_is_a_500 (mock cooperative)
           (inbound (Some (lit "Basic YTpi")) (lit "GET") [])
           (config (Wellformed (JArray []))) (a_b_accepted _ _ _) eq_refl).
Defined.

(* ===================================================================== *)
(** ** Ports *)
(* ===================================================================== *)









(* ===================================================================== *)
(** ** The two files side by side, and what a request can cost *)
(* ===================================================================== *)

(** The two files agree.  Their connect operations perform the same
    effects and end the same way (the same socket, or an error, whose text
    may differ).  For a CONNECT request and a proxy list that is neither null
    nor empty, their handlers perform the same effects and answer with the
    same status. *)
Theorem the_two_files_agree :
  (forall pf proxy targetHost targetPort rt,
     snd (Index.socks5_connect pf proxy targetHost targetPort rt) =
       snd (Part000.socks5Connect pf proxy targetHost targetPort rt)
     /\ same_outcome
          (fst (Index.socks5_connect pf proxy targetHost targetPort rt))
          (fst (Part000.socks5Connect pf proxy targetHost targetPort rt)))
  /\ (forall pf request env,
        method request = lit "CONNECT" ->
        PROXIES_JSON env <> Wellformed JNull ->
        PROXIES_JSON env <> Wellformed (JArray []) ->
        snd (Index.fetch pf request env boot) =
          snd (Part000.fetch pf request env boot)
        /\ exists r1 r2,
             fst (Index.fetch pf request env boot) = Normal r1
             /\ fst (Part000.fetch pf request env boot) = Normal r2
             /\ reply_status r1 = reply_status r2).
Proof.
  split; [exact connect_ops_agree|].
  intros pf request env Hm Hnull Hempty.
  destruct (gate (proxy_authorization request) (USERS_JSON env)) as [r|] eqn:G.
  - rewrite (gate_answer _ (or_introl eq_refl) pf request env boot r G).
    rewrite (gate_answer _ (or_intror (or_introl eq_refl))
               pf request env boot r G).
    split; [reflexivity|]. exists (Respond r), (Respond r). auto.
  - apply gate_open_iff in G.
    destruct (PROXIES_JSON env) as [|[|[|p0 ps]]] eqn:Hp;
      try contradiction.
    + rewrite (unparseable_proxy_list_500 _ (or_introl eq_refl)
                 pf request env G Hp).
      rewrite (unparseable_proxy_list_500 _ (or_intror (or_introl eq_refl))
                 pf request env G Hp).
      split; [reflexivity|]. do 2 eexists. repeat split.
    + rewrite (index_after_gate pf request env (p0 :: ps) G Hp).
      rewrite (part000_after_gate pf request env (p0 :: ps) G Hp)
        by discriminate.
      rewrite Hm, str_eqb_refl. cbn [fst snd].
      destruct (connect_ops_agree pf
                  (nth_error (p0 :: ps)
                     (random_index pf (List.length (p0 :: ps))))
                  (url_hostname (url request))
                  (parseInt_or (url_port (url request)) 443) drawn)
        as [Et Eo].
      split; [exact Et|].
      destruct (fst (Index.socks5_connect pf _ _ _ drawn)) as [s1|m1],
               (fst (Part000.socks5Connect pf _ _ _ drawn)) as [s2|m2];
        cbn [same_outcome] in Eo; try contradiction.
      * subst s2. do 2 eexists. repeat split.
      * do 2 eexists. repeat split.
Qed.

Lemma the_two_files_agree_witness :
  method (inbound (Some (lit "Basic YTpi")) (lit "CONNECT") []) = lit "CONNECT"
  /\ PROXIES_JSON (config (Wellformed (JArray [proxy1]))) <> Wellformed JNull
  /\ PROXIES_JSON (config (Wellformed (JArray [proxy1]))) <>
       Wellformed (JArray [])
  /\ snd (Index.fetch (mock refusing)
            (inbound (Some (lit "Basic YTpi")) (lit "CONNECT") [])
            (config (Wellformed (JArray [proxy1]))) boot) =
       snd (Part000.fetch (mock refusing)
              (inbound (Some (lit "Basic YTpi")) (lit "CONNECT") [])
              (config (Wellformed (JArray [proxy1]))) boot).
Proof.
  assert (H1 : PROXIES_JSON (config (Wellformed (JArray [proxy1]))) <>
               Wellformed JNull) by discriminate.
  assert (H2 : PROXIES_JSON (config (Wellformed (JArray [proxy1]))) <>
               Wellformed (JArray [])) by discriminate.
  split; [reflexivity|]. split; [exact H1|]. split; [exact H2|].
  exact (proj1 (proj2 the_two_files_agree (mock refusing)
                  (inbound (Some (lit "Basic YTpi")) (lit "CONNECT") [])
                  (config (Wellformed (JArray [proxy1]))) eq_refl H1 H2)).
Defined.

Lemma count_app (f : event -> bool) (a b : list event) :
  count f (a ++ b) = (count f a + count f b)%nat.
Proof. unfold count. rewrite filter_app, length_app. reflexivity. Qed.

Lemma writes_app (a b : list event) : writes (a ++ b) = writes a ++ writes b.
Proof.
  induction a as [|e a IH]; [reflexivity|].
  destruct e; cbn [app writes]; rewrite IH; reflexivity.
Qed.

Lemma connect_cost :
  forall op, In op connect_ops ->
  forall pf proxy targetHost targetPort rt,
    exists effects,
      trace (snd (op pf proxy targetHost targetPort rt)) = trace rt ++ effects
      /\ count is_random effects = 0%nat
      /\ count is_call effects = 1%nat
      /\ (count is_open effects <= 1)%nat
      /\ (count is_close effects <= 1)%nat
      /\ (List.length (writes effects) <= 3)%nat
      /\ (List.length (reads effects) <= 3)%nat.
Proof.
  intros op Hop pf proxy targetHost targetPort rt.
  two_ops Hop.
  all: destruct proxy as [p|]; run_handshake.
  all: try (generalize (peer pf (proxy_host p) (proxy_port p)); intros script).
  all: repeat (case_reply; cbn [fst snd]).
  all: cbn [fst snd trace]; rewrite <- ?app_assoc; cbn [app].
  all: eexists; split; [reflexivity|].
  all: cbn; lia.
Qed.

(** One request costs at most one random draw, one call of the connect
    operation, one socket, three packets written, three replies read and one
    close: there is no retry and no second proxy. *)
Theorem one_request_one_attempt :
  forall handler, In handler handlers ->
  forall pf request env,
    let tr := trace (snd (handler pf request env boot)) in
    (count is_random tr <= 1)%nat
    /\ (count is_call tr <= 1)%nat
    /\ (count is_open tr <= 1)%nat
    /\ (count is_close tr <= 1)%nat
    /\ (List.length (writes tr) <= 3)%nat
    /\ (List.length (reads tr) <= 3)%nat.
Proof.
  intros handler Hh pf request env.
  two_handlers Hh; run_fetch.
  all: repeat gate_case.
  all: try (cbn; lia).
  all: match goal with
       | |- context [Index.socks5_connect ?a ?b ?c ?d ?e] =>
           destruct (connect_cost _ (or_introl eq_refl) a b c d e)
             as (effects & Et & C1 & C2 & C3 & C4 & C5 & C6);
           destruct (Index.socks5_connect a b c d e) as [[sock|m] rt2]
       | |- context [Part000.socks5Connect ?a ?b ?c ?d ?e] =>
           destruct (connect_cost _ (or_intror (or_introl eq_refl)) a b c d e)
             as (effects & Et & C1 & C2 & C3 & C4 & C5 & C6);
           destruct (Part000.socks5Connect a b c d e) as [[sock|m] rt2]
       end.
  all: cbn [fst snd trace app boot] in *; rewrite Et.
  all: change (EvRandom :: effects) with ([EvRandom] ++ effects).
  all: rewrite !count_app, !writes_app.
  all: cbn; lia.
Qed.

Lemma one_request_one_attempt_witness :
  In Index.fetch handlers
  /\ (count is_random
        (trace (snd (Index.fetch (mock refusing)
                       (inbound (Some (lit "Basic YTpi")) (lit "CONNECT") [])
                       (config (Wellformed (JArray [proxy1]))) boot))) <= 1)%nat
  /\ (count is_open
        (trace (snd (Index.fetch (mock refusing)
                       (inbound (Some (lit "Basic YTpi")) (lit "CONNECT") [])
                       (config (Wellformed (JArray [proxy1]))) boot))) <= 1)%nat.
Proof.
  split; [left; reflexivity|].
  pose proof (one_request_one_attempt Index.fetch (or_introl eq_refl)
                (mock refusing)
                (inbound (Some (lit "Basic YTpi")) (lit "CONNECT") [])
                (config (Wellformed (JArray [proxy1])))) as H.
  cbv zeta in H. destruct H as (H1 & _ & H3 & _).
  split; [exact H1 | exact H3].
Defined.
